(** * exman: Excalidraw frames to Manim scenes

    A shallow embedding of [src/main.py] (the function
    [parse_excalidraw_to_manim]) and the properties of its specification.

    Conventions of the embedding.
    - A JSON value as [json.load] returns it is a [value].  Python's [int]
      and [float] are both embedded as exact rationals ([Q]): rounding,
      overflow, infinities and NaN are outside the model.
    - A Python exception is a constructor of [exn]; an expression that may
      raise has type [result A].
    - Text handed to [print] or to [manim_file.write] is a list of [piece]s:
      the literal parts of the f-string verbatim, and the interpolated
      values left as values (their rendering by [str] and [repr] is not
      modelled).
    - The run threads a [world]: what was printed, and what was written to
      the output file, if it was opened at all. *)

From Stdlib Require Import ZArith QArith Qminmax Lqa Lia Bool List String Ascii.
Import ListNotations.

Local Open Scope Q_scope.

(** ** Exceptions and fallible expressions *)

(** The built-in exceptions the program can raise.  [main.py] defines no
    exception class of its own and contains no [try]. *)
Inductive exn : Type :=
| StopIteration      (* next() on an exhausted generator; carries no argument *)
| ZeroDivisionError  (* x / 0 *)
| TypeError          (* an operand of the wrong type; hashing a list or dict *)
| AttributeError     (* a method looked up on a value that lacks it *)
| ValueError         (* float() on a string that is not a number *)
| KeyError           (* config[name] for a section that does not exist *)
| InterpolationSyntaxError         (* a config value with a stray percent sign *)
| InterpolationMissingOptionError  (* %(name)s for an option that is not set *)
| InterpolationDepthError          (* references nested more than ten deep *)
| OSError            (* open() on a file that cannot be opened *)
| JSONDecodeError    (* json.load on text that is not JSON *)
| NotRepresented.    (* no exception of Python: see below *)

(** [NotRepresented] marks the one place where the program goes on and the
    embedding cannot follow: [float] of a configured ["inf"] or ["nan"]
    returns an infinity or NaN, which is no rational.  The embedding ends
    such a run there, apart from every exception of Python. *)

Inductive result (A : Type) : Type :=
| Ok (a : A)
| Raise (e : exn).
Arguments Ok {A} a.
Arguments Raise {A} e.

Definition bind {A B : Type} (r : result A) (k : A -> result B) : result B :=
  match r with
  | Ok a => k a
  | Raise e => Raise e
  end.

Declare Scope result_scope.
Delimit Scope result_scope with result.
Notation "x <- r ;; k" := (bind r (fun x => k))
  (at level 100, r at next level, right associativity) : result_scope.
Local Open Scope result_scope.

(** ** JSON values *)

#[local] Set Warnings "-register-all".

Inductive value : Type :=
| VNone
| VBool (b : bool)
| VNum (q : Q)
| VStr (s : string)
| VList (l : list value)
| VDict (d : list (string * value)).

Definition dict : Type := list (string * value).

(** The newline character, and ["\n"]. *)
Definition newline : ascii := "010"%char.
Definition nl : string := String newline EmptyString.

Module Py.

(** [d.get(k, default)] on a dict. *)
Fixpoint dict_get (d : dict) (k : string) (default : value) : value :=
  match d with
  | [] => default
  | (k', v) :: d' => if String.eqb k' k then v else dict_get d' k default
  end.

(** [v.get(k, default)]: only a dict has the method. *)
Definition get (v : value) (k : string) (default : value) : result value :=
  match v with
  | VDict d => Ok (dict_get d k default)
  | _ => Raise AttributeError
  end.

(** [bool(v)], as [if not shapes] tests it. *)
Definition truthy (v : value) : bool :=
  match v with
  | VNone => false
  | VBool b => b
  | VNum q => negb (Qeq_bool q 0)
  | VStr s => negb (String.eqb s EmptyString)
  | VList l => match l with [] => false | _ => true end
  | VDict d => match d with [] => false | _ => true end
  end.

Fixpoint chars (s : string) : list value :=
  match s with
  | EmptyString => []
  | String c s' => VStr (String c EmptyString) :: chars s'
  end.

(** [for shape in v]: a list yields its items, a string its characters, a
    dict its keys; the other values are not iterable. *)
Definition iterate (v : value) : result (list value) :=
  match v with
  | VList l => Ok l
  | VStr s => Ok (chars s)
  | VDict d => Ok (map (fun kv => VStr (fst kv)) d)
  | _ => Raise TypeError
  end.

(** The number a value is in arithmetic: [bool] is a subclass of [int]. *)
Definition as_num (v : value) : result Q :=
  match v with
  | VNum q => Ok q
  | VBool b => Ok (if b then 1 else 0)
  | _ => Raise TypeError
  end.

(** [a - b]: defined on numbers only among JSON values. *)
Definition sub (a b : value) : result Q :=
  p <- as_num a ;; q <- as_num b ;; Ok (p - q).

(** [a / b]. *)
Definition truediv (a b : value) : result Q :=
  p <- as_num a ;; q <- as_num b ;;
  if Qeq_bool q 0 then Raise ZeroDivisionError else Ok (p / q).

(** [a * f] for a float [f]: a str or list times a float is a TypeError. *)
Definition mul_float (a : value) (f : Q) : result Q :=
  p <- as_num a ;; Ok (p * f).

(** [min(a, b)] returns [a] unless [b < a]. *)
Definition min (a b : Q) : Q := Qmin a b.

(** *** Hashable values: the keys of the [frames] dict *)

Inductive key : Type :=
| KNone
| KBool (b : bool)
| KNum (q : Q)
| KStr (s : string).

(** [hash(v)], as [frame_id not in frames] and [frames[frame_id]] need
    it: a list or a dict is unhashable. *)
Definition hash (v : value) : result key :=
  match v with
  | VNone => Ok KNone
  | VBool b => Ok (KBool b)
  | VNum q => Ok (KNum q)
  | VStr s => Ok (KStr s)
  | VList _ | VDict _ => Raise TypeError
  end.

Definition key_num (k : key) : option Q :=
  match k with
  | KBool b => Some (if b then 1 else 0)
  | KNum q => Some q
  | _ => None
  end.

(** [a == b] on hashable values: numbers and booleans compare by value
    ([1 == 1.0 == True]), strings by content, [None] only equals itself. *)
Definition key_eqb (a b : key) : bool :=
  match a, b with
  | KNone, KNone => true
  | KStr s, KStr t => String.eqb s t
  | _, _ => match key_num a, key_num b with
            | Some p, Some q => Qeq_bool p q
            | _, _ => false
            end
  end.

(** [v == k] for a hashable [k]: a list or a dict never equals one. *)
Definition eq (v : value) (k : key) : bool :=
  match hash v with
  | Ok k' => key_eqb k' k
  | Raise _ => false
  end.

(** *** String methods (on ASCII; a byte above 127 is neither cased nor
    space) *)

Definition isupper (c : ascii) : bool :=
  let n := nat_of_ascii c in ((65 <=? n) && (n <=? 90))%nat.

Definition islower (c : ascii) : bool :=
  let n := nat_of_ascii c in ((97 <=? n) && (n <=? 122))%nat.

Definition upper (c : ascii) : ascii :=
  if islower c then ascii_of_nat (nat_of_ascii c - 32) else c.

Definition lower (c : ascii) : ascii :=
  if isupper c then ascii_of_nat (nat_of_ascii c + 32) else c.

(** [c.isspace()]: tab, line feed, vertical tab, form feed, carriage
    return, the four separators 28..31, and space. *)
Definition isspace (c : ascii) : bool :=
  let n := nat_of_ascii c in
  (((9 <=? n) && (n <=? 13)) || ((28 <=? n) && (n <=? 32)))%nat.

(** [s.title()]: a cased character is upper-cased after an uncased one
    (or at the start) and lower-cased after a cased one. *)
Fixpoint title_from (previous_is_cased : bool) (s : string) : string :=
  match s with
  | EmptyString => EmptyString
  | String c s' =>
      String (if previous_is_cased then lower c else upper c)
             (title_from (isupper c || islower c) s')
  end.

Definition title (s : string) : string := title_from false s.

(** [''.join(x for x in s if keep(x))]. *)
Fixpoint join_if (keep : ascii -> bool) (s : string) : string :=
  match s with
  | EmptyString => EmptyString
  | String c s' =>
      if keep c then String c (join_if keep s') else join_if keep s'
  end.

(** [s.split(sep)] for a one-character separator. *)
Fixpoint split (sep : ascii) (s : string) : list string :=
  match s with
  | EmptyString => [EmptyString]
  | String c s' =>
      if Ascii.eqb c sep then EmptyString :: split sep s'
      else match split sep s' with
           | [] => [String c EmptyString]
           | w :: ws => String c w :: ws
           end
  end.

(** [v.title()] and [v.split(sep)]: only a str has the methods. *)
Definition str_title (v : value) : result string :=
  match v with
  | VStr s => Ok (title s)
  | _ => Raise AttributeError
  end.

Definition str_split (v : value) (sep : ascii) : result (list string) :=
  match v with
  | VStr s => Ok (split sep s)
  | _ => Raise AttributeError
  end.

End Py.

(** ** The Manim configuration

    What [configparser] holds after [config.read(manim_config_path)]: the
    options of the [DEFAULT] section and the named sections, every option
    name already lower-cased by the reader, every value a string.  A
    missing file leaves both empty.  Reading the file itself is not
    modelled. *)
Module Config.

Record t : Type := {
  defaults : list (string * string);
  sections : list (string * list (string * string))
}.

Definition empty : t := {| defaults := []; sections := [] |}.

Fixpoint assoc {A : Type} (k : string) (l : list (string * A)) : option A :=
  match l with
  | [] => None
  | (k', a) :: l' => if String.eqb k' k then Some a else assoc k l'
  end.

(** [config.has_section(name)]: [DEFAULT] is not a section. *)
Definition has_section (config : t) (name : string) : bool :=
  match assoc name (sections config) with
  | Some _ => true
  | None => false
  end.

(** The string [config[section]] holds for the option [name]: the
    section's own value, else the one of [DEFAULT]. *)
Definition option_value (config : t) (options : list (string * string))
    (name : string) : option string :=
  match assoc name options with
  | Some s => Some s
  | None => assoc name (defaults config)
  end.

(** *** Value interpolation

    [BasicInterpolation.before_get], which [get] applies to a value that is
    set: [%%] stands for a percent sign, [%(name)s] for the value of the
    option [name], itself interpolated; any other percent sign is an
    error. *)

(** The text before the first percent sign, and the rest from it on. *)
Fixpoint find_percent (s : string) : option (string * string) :=
  match s with
  | EmptyString => None
  | String c s' =>
      if Ascii.eqb c "%" then Some (EmptyString, s)
      else match find_percent s' with
           | Some (before, rest) => Some (String c before, rest)
           | None => None
           end
  end.

(** The characters up to the first closing parenthesis, and what follows
    it. *)
Fixpoint until_close (s : string) : option (string * string) :=
  match s with
  | EmptyString => None
  | String c s' =>
      if Ascii.eqb c ")" then Some (EmptyString, s')
      else match until_close s' with
           | Some (name, rest) => Some (String c name, rest)
           | None => None
           end
  end.

(** The match of [%\(([^)]+)\)s] at the head of a string, given what
    follows its ["%("]: the name, and what follows the match. *)
Definition key_reference (after_paren : string) : option (string * string) :=
  match until_close after_paren with
  | Some (String c name, String "s" rest) => Some (String c name, rest)
  | _ => None
  end.

(** [parser.optionxform]: the name in lower case. *)
Fixpoint optionxform (s : string) : string :=
  match s with
  | EmptyString => EmptyString
  | String c s' => String (Py.lower c) (optionxform s')
  end.

(** The loop [while rest] of [_interpolate_some], with [accum] as one
    string; [nested] is the call for a value that holds a percent sign
    itself, one level deeper.  Every turn shortens [rest], so a [fuel]
    above its length is never used up. *)
Fixpoint interpolate_loop (nested : string -> string -> result string)
    (lookup : string -> option string) (fuel : nat) (rest accum : string)
    : result string :=
  match fuel with
  | O => Ok accum
  | S fuel' =>
      match find_percent rest with
      | None => Ok (accum ++ rest)
      | Some (before, String _ (String "%" rest')) =>
          interpolate_loop nested lookup fuel' rest' (accum ++ before ++ "%")
      | Some (before, String _ (String "(" after_paren)) =>
          match key_reference after_paren with
          | None => Raise InterpolationSyntaxError
          | Some (name, rest') =>
              match lookup (optionxform name) with
              | None => Raise InterpolationMissingOptionError
              | Some v =>
                  accum' <- match find_percent v with
                            | Some _ => nested v (accum ++ before)
                            | None => Ok (accum ++ before ++ v)
                            end ;;
                  interpolate_loop nested lookup fuel' rest' accum'
              end
          end
      | Some _ => Raise InterpolationSyntaxError
      end
  end%string.

(** [_interpolate_some]; [levels] counts the nesting still allowed,
    [MAX_INTERPOLATION_DEPTH] being 10. *)
Fixpoint interpolate_some (levels : nat) (lookup : string -> option string)
    (rest accum : string) : result string :=
  match levels with
  | O => Raise InterpolationDepthError
  | S levels' =>
      interpolate_loop (interpolate_some levels' lookup) lookup
        (S (String.length rest)) rest accum
  end.

Definition before_get (config : t) (options : list (string * string))
    (value : string) : result string :=
  interpolate_some 10 (option_value config options) value EmptyString.

(** [config[section].get(name, fallback)]. *)
Definition get (config : t) (section name : string) (fallback : value)
    : result value :=
  match assoc section (sections config) with
  | None => Raise KeyError
  | Some options =>
      match option_value config options name with
      | Some raw => s <- before_get config options raw ;; Ok (VStr s)
      | None => Ok fallback
      end
  end.

(** *** [float(s)] on a string

    For a string of ASCII characters: surrounding white space is dropped;
    single underscores may stand between digits; then come an optional
    sign and either digits with an optional point and an optional
    exponent, or one of [inf], [infinity] and [nan] in any case. *)

(** What a string is to [float]: a number, an infinity or NaN, or
    nothing. *)
Inductive literal : Type :=
| Number (q : Q)
| NotFinite
| Malformed.

Definition digit (c : ascii) : option Z :=
  let n := nat_of_ascii c in
  if ((48 <=? n) && (n <=? 57))%nat then Some (Z.of_nat (n - 48)) else None.

Definition is_digit (c : ascii) : bool :=
  match digit c with
  | Some _ => true
  | None => false
  end.

(** The longest run of digits at the head of [s], accumulated onto [acc]:
    the number read, how many digits, and what follows. *)
Fixpoint digits (acc : Z) (n : nat) (s : string) : Z * nat * string :=
  match s with
  | EmptyString => (acc, n, s)
  | String c s' =>
      match digit c with
      | Some d => digits (10 * acc + d) (S n) s'
      | None => (acc, n, s)
      end
  end.

(** The white space [float] drops around an ASCII string: tab, line feed,
    vertical tab, form feed, carriage return and space. *)
Definition is_c_space (c : ascii) : bool :=
  let n := nat_of_ascii c in
  (((9 <=? n) && (n <=? 13)) || (n =? 32))%nat.

Fixpoint lstrip (s : string) : string :=
  match s with
  | EmptyString => EmptyString
  | String c s' => if is_c_space c then lstrip s' else s
  end.

Fixpoint rstrip (s : string) : string :=
  match s with
  | EmptyString => EmptyString
  | String c s' =>
      match rstrip s' with
      | EmptyString => if is_c_space c then EmptyString else String c EmptyString
      | r => String c r
      end
  end.

(** The string without its underscores, if each of them stands between
    two digits; [prev] is the character before. *)
Fixpoint remove_underscores (prev : ascii) (s : string) : option string :=
  match s with
  | EmptyString => if Ascii.eqb prev "_" then None else Some EmptyString
  | String c s' =>
      if Ascii.eqb c "_" then
        if is_digit prev then remove_underscores c s' else None
      else if (Ascii.eqb prev "_" && negb (is_digit c))%bool then None
           else option_map (String c) (remove_underscores c s')
  end.

(** An optional sign: [true] for a minus. *)
Definition sign (s : string) : bool * string :=
  match s with
  | String "-" s' => (true, s')
  | String "+" s' => (false, s')
  | _ => (false, s)
  end.

Definition signed (negative : bool) (z : Z) : Z :=
  if negative then (- z)%Z else z.

(** The exponent part, if there is one: its value and what follows. *)
Definition exponent (s : string) : option (Z * string) :=
  match s with
  | String c s' =>
      if (Ascii.eqb c "e" || Ascii.eqb c "E")%bool then
        let '(negative, s1) := sign s' in
        let '(e, n, s2) := digits 0 0 s1 in
        match n with
        | O => None
        | S _ => Some (signed negative e, s2)
        end
      else Some (0%Z, s)
  | EmptyString => Some (0%Z, s)
  end.

(** The words of the infinities and of NaN, in any case. *)
Definition is_inf_or_nan (s : string) : bool :=
  let word := optionxform s in
  (String.eqb word "inf" || String.eqb word "infinity"
   || String.eqb word "nan")%bool.

(** The digits, point and exponent of a number, after the sign. *)
Definition decimal (negative : bool) (s1 : string) : literal :=
  let '(int_part, n_int, s2) := digits 0 0 s1 in
  let '(mantissa, n_frac, s3) :=
    match s2 with
    | String "." s' => digits int_part 0 s'
    | _ => (int_part, O, s2)
    end in
  match (n_int + n_frac)%nat with
  | O => Malformed
  | S _ =>
      match exponent s3 with
      | Some (e, EmptyString) =>
          Number (inject_Z (signed negative mantissa)
                  * Qpower 10 (e - Z.of_nat n_frac))
      | _ => Malformed
      end
  end.

Definition literal_of (s : string) : literal :=
  match remove_underscores "000" (rstrip (lstrip s)) with
  | None => Malformed
  | Some plain =>
      let '(negative, s1) := sign plain in
      if is_inf_or_nan s1 then NotFinite else decimal negative s1
  end.

(** [float(v)].  An infinity or NaN is no rational: the embedding has no
    run for a canvas of such a dimension and ends there, with
    [NotRepresented]. *)
Definition float (v : value) : result Q :=
  match v with
  | VStr s =>
      match literal_of s with
      | Number q => Ok q
      | NotFinite => Raise NotRepresented
      | Malformed => Raise ValueError
      end
  | VNum q => Ok q
  | VBool b => Ok (if b then 1 else 0)
  | _ => Raise TypeError
  end.

End Config.

(** Step 1 of [parse_excalidraw_to_manim]: the Manim screen dimensions
    [(manim_frame_width, manim_frame_height)]. *)
Definition manim_frame_size (config : Config.t) : result (Q * Q) :=
  let manim_frame_width := 14 in
  let manim_frame_height := 8 in
  if Config.has_section config "CLI" then
    w <- Config.get config "CLI" "frame_width" (VNum manim_frame_width) ;;
    manim_frame_width <- Config.float w ;;
    h <- Config.get config "CLI" "frame_height" (VNum manim_frame_height) ;;
    manim_frame_height <- Config.float h ;;
    Ok (manim_frame_width, manim_frame_height)
  else Ok (manim_frame_width, manim_frame_height).

(** ** Step 2: objects aggregated into frames *)

(** The dict built for every shape that has a [frameId]. *)
Module Obj.
Record t : Type := {
  type : value;
  x : value;
  y : value;
  width : value;
  height : value;
  text : value;
  fontSize : value
}.
End Obj.

(** The dict built for a [frameId] when it is first met. *)
Module Frame.
Record t : Type := {
  width : value;
  height : value;
  x : value;
  y : value;
  name : value;
  objects : list Obj.t
}.

(** [frame["objects"].append(object)]. *)
Definition append (object : Obj.t) (frame : t) : t :=
  {| width := width frame; height := height frame;
     x := x frame; y := y frame; name := name frame;
     objects := objects frame ++ [object] |}.
End Frame.

(** The [frames] dict: insertion-ordered, one entry per key. *)
Definition frames_t : Type := list (Py.key * Frame.t).

(** [frame_id in frames]. *)
Definition contains (frame_id : Py.key) (frames : frames_t) : bool :=
  existsb (fun entry => Py.key_eqb (fst entry) frame_id) frames.

(** [frames[frame_id]["objects"].append(object)]: the entry of the key
    changes in place; without the key nothing is appended (the program
    only does it for a key that is present). *)
Fixpoint append_object (frame_id : Py.key) (object : Obj.t)
    (frames : frames_t) : frames_t :=
  match frames with
  | [] => []
  | (k, frame) :: frames' =>
      if Py.key_eqb k frame_id
      then (k, Frame.append object frame) :: frames'
      else (k, frame) :: append_object frame_id object frames'
  end.

(** [next(shape for shape in shapes if shape.get("id") == frame_id)]. *)
Fixpoint find_frame (shapes : list value) (frame_id : Py.key)
    : result value :=
  match shapes with
  | [] => Raise StopIteration
  | shape :: shapes' =>
      id <- Py.get shape "id" VNone ;;
      if Py.eq id frame_id then Ok shape else find_frame shapes' frame_id
  end.

(** The new entry of [frames], from the frame shape. *)
Definition make_frame (frame : value) : result Frame.t :=
  width <- Py.get frame "width" VNone ;;
  height <- Py.get frame "height" VNone ;;
  x <- Py.get frame "x" VNone ;;
  y <- Py.get frame "y" VNone ;;
  name <- Py.get frame "name" VNone ;;
  Ok {| Frame.width := width; Frame.height := height;
        Frame.x := x; Frame.y := y; Frame.name := name;
        Frame.objects := [] |}.

Definition make_object (shape : value) : result Obj.t :=
  type <- Py.get shape "type" VNone ;;
  x <- Py.get shape "x" VNone ;;
  y <- Py.get shape "y" VNone ;;
  width <- Py.get shape "width" (VNum 0) ;;
  height <- Py.get shape "height" (VNum 0) ;;
  text <- Py.get shape "text" (VStr EmptyString) ;;
  fontSize <- Py.get shape "fontSize" (VNum 0) ;;
  Ok {| Obj.type := type; Obj.x := x; Obj.y := y;
        Obj.width := width; Obj.height := height;
        Obj.text := text; Obj.fontSize := fontSize |}.

(** The body of [for shape in shapes]: one shape, the frames so far. *)
Definition aggregate_shape (shapes : list value) (shape : value)
    (frames : frames_t) : result frames_t :=
  frame_id <- Py.get shape "frameId" VNone ;;
  match frame_id with
  | VNone => Ok frames
  | _ =>
      k <- Py.hash frame_id ;;
      frames <- (if contains k frames then Ok frames
                 else
                   frame <- find_frame shapes k ;;
                   entry <- make_frame frame ;;
                   Ok (frames ++ [(k, entry)])) ;;
      object <- make_object shape ;;
      Ok (append_object k object frames)
  end.

(** The loop over the shapes still to visit; [shapes] is the whole list,
    which every frame search scans from its start. *)
Fixpoint aggregate_loop (shapes rest : list value) (frames : frames_t)
    : result frames_t :=
  match rest with
  | [] => Ok frames
  | shape :: rest' =>
      frames <- aggregate_shape shapes shape frames ;;
      aggregate_loop shapes rest' frames
  end.

Definition aggregate (shapes : list value) : result frames_t :=
  aggregate_loop shapes shapes [].

(** ** Step 3: the scenes *)

(** A part of a formatted string: literal text, [{v}] or [{repr(v)}]. *)
Inductive piece : Type :=
| Lit (s : string)
| Str (v : value)
| Repr (v : value).

Definition text_t : Type := list piece.

(** What the run has done so far: the [print] calls, and the [write] calls
    on the output file ([None] while it has not been opened). *)
Record world : Type := {
  stdout : list text_t;
  manim_file : option (list text_t)
}.

Definition initial : world := {| stdout := []; manim_file := None |}.

(** A statement: it changes the world and returns or raises; what was
    printed and written before an exception stays. *)
Definition M (A : Type) : Type := world -> result A * world.

Definition ret {A : Type} (a : A) : M A := fun w => (Ok a, w).

Definition lift {A : Type} (r : result A) : M A := fun w => (r, w).

Definition bindM {A B : Type} (m : M A) (k : A -> M B) : M B :=
  fun w => match m w with
           | (Ok a, w') => k a w'
           | (Raise e, w') => (Raise e, w')
           end.

Declare Scope M_scope.
Delimit Scope M_scope with M.
Notation "x <- m ;; k" := (bindM m (fun x => k))
  (at level 100, m at next level, right associativity) : M_scope.
Notation "m ;; k" := (bindM m (fun _ => k))
  (at level 100, right associativity) : M_scope.

(** [print(t)]. *)
Definition print (t : text_t) : M unit :=
  fun w => (Ok tt, {| stdout := stdout w ++ [t]; manim_file := manim_file w |}).

(** [open(output_file, 'w')]: the file is created or emptied. *)
Definition open_w : M unit :=
  fun w => (Ok tt, {| stdout := stdout w; manim_file := Some [] |}).

(** [manim_file.write(t)]. *)
Definition write (t : text_t) : M unit :=
  fun w => (Ok tt, {| stdout := stdout w;
                      manim_file := match manim_file w with
                                    | Some written => Some (written ++ [t])
                                    | None => None
                                    end |}).

(** [for a in l: body(a)]. *)
Fixpoint for_each {A : Type} (body : A -> M unit) (l : list A) : M unit :=
  match l with
  | [] => ret tt
  | a :: l' => (body a ;; for_each body l')%M
  end.

(** [min(manim_frame_width / frame_width, manim_frame_height / frame_height)]. *)
Definition frame_scale (manim_frame_width manim_frame_height : Q)
    (frame_width frame_height : value) : result Q :=
  scale_x <- Py.truediv (VNum manim_frame_width) frame_width ;;
  scale_y <- Py.truediv (VNum manim_frame_height) frame_height ;;
  Ok (Py.min scale_x scale_y).

(** [Frame{''.join(x for x in frame_name.title() if not x.isspace())}Scene]. *)
Definition scene_name (frame_name : value) : result string :=
  titled <- Py.str_title frame_name ;;
  Ok ("Frame" ++ Py.join_if (fun x => negb (Py.isspace x)) titled ++ "Scene")%string.

(** The object in canvas coordinates:
    [(obj_x, obj_y, obj_width, obj_height)]. *)
Definition transform (frame : Frame.t) (scale : Q) (obj : Obj.t)
    : result (Q * Q * Q * Q) :=
  dx <- Py.sub (Obj.x obj) (Frame.x frame) ;;
  half_frame_width <- Py.truediv (Frame.width frame) (VNum 2) ;;
  half_width <- Py.truediv (Obj.width obj) (VNum 2) ;;
  let obj_x := (dx - half_frame_width + half_width) * scale in
  dy <- Py.sub (Obj.y obj) (Frame.y frame) ;;
  half_frame_height <- Py.truediv (Frame.height frame) (VNum 2) ;;
  half_height <- Py.truediv (Obj.height obj) (VNum 2) ;;
  let obj_y := (- (dy - half_frame_height + half_height)) * scale in
  obj_width <- Py.mul_float (Obj.width obj) scale ;;
  obj_height <- Py.mul_float (Obj.height obj) scale ;;
  Ok (obj_x, obj_y, obj_width, obj_height).

(** [sep.join(items)] on formatted strings. *)
Fixpoint join (sep : text_t) (items : list text_t) : text_t :=
  match items with
  | [] => []
  | [t] => t
  | t :: items' => t ++ sep ++ join sep items'
  end.

(** The statement of a rectangle or an ellipse. *)
Definition add_primitive (class : string) (obj_x obj_y obj_width obj_height : Q)
    : text_t :=
  [Lit ("        self.add(" ++ class ++ "(width=")%string;
   Str (VNum obj_width); Lit ", height="; Str (VNum obj_height);
   Lit ").move_to(["; Str (VNum obj_x); Lit ", "; Str (VNum obj_y);
   Lit (", 0]))" ++ nl)%string].

(** The statement of a text: one [Text] per line, grouped. *)
Definition add_text (text_lines : list string) (font_size obj_x obj_y : Q)
    : text_t :=
  [Lit "        self.add(VGroup("]
  ++ join [Lit ", "]
       (map (fun line => [Lit "Text("; Repr (VStr line);
                          Lit ", should_center=False, font_size=";
                          Str (VNum font_size); Lit ")"]) text_lines)
  ++ [Lit ").arrange(DOWN, buff=0.02, center=False, aligned_edge=LEFT).move_to([";
      Str (VNum obj_x); Lit ", "; Str (VNum obj_y); Lit (", 0]))" ++ nl)%string].

(** The statement chosen by [obj["type"]], for the object already in canvas
    coordinates: the chain of [if] and [elif]. *)
Definition draw_object (obj : Obj.t) (canvas : Q * Q * Q * Q) : M unit :=
  let '(obj_x, obj_y, obj_width, obj_height) := canvas in
  (if Py.eq (Obj.type obj) (Py.KStr "rectangle") then
     write (add_primitive "Rectangle" obj_x obj_y obj_width obj_height)
   else if Py.eq (Obj.type obj) (Py.KStr "ellipse") then
     write (add_primitive "Ellipse" obj_x obj_y obj_width obj_height)
   else if Py.eq (Obj.type obj) (Py.KStr "text") then
     text_lines <- lift (Py.str_split (Obj.text obj) newline) ;;
     font_size <- lift (Py.mul_float (Obj.fontSize obj) (3 # 10)) ;;
     write (add_text text_lines font_size obj_x obj_y)
   else ret tt)%M.

(** The body of [for obj in frame["objects"]]. *)
Definition emit_object (frame : Frame.t) (scale : Q) (obj : Obj.t) : M unit :=
  (canvas <- lift (transform frame scale obj) ;;
   draw_object obj canvas)%M.

(** The body of [for frame_id, frame in frames.items()]. *)
Definition emit_frame (manim_frame_width manim_frame_height : Q)
    (item : Py.key * Frame.t) : M unit :=
  let frame := snd item in
  let frame_width := Frame.width frame in
  let frame_height := Frame.height frame in
  let frame_name := Frame.name frame in
  let frame_x := Frame.x frame in
  let frame_y := Frame.y frame in
  (scale <- lift (frame_scale manim_frame_width manim_frame_height
                    frame_width frame_height) ;;
   logged <- lift (scene_name frame_name) ;;
   print [Lit (logged ++ ":" ++ nl)%string] ;;
   print [Lit "  - Frame width: "; Str frame_width] ;;
   print [Lit "  - Frame height: "; Str frame_height] ;;
   print [Lit "  - Frame x: "; Str frame_x] ;;
   print [Lit "  - Frame y: "; Str frame_y] ;;
   print [Lit "  - Scale: "; Str (VNum scale)] ;;
   class <- lift (scene_name frame_name) ;;
   write [Lit ("class " ++ class ++ "(Scene):" ++ nl)%string] ;;
   write [Lit ("    def construct(self):" ++ nl)%string] ;;
   for_each (emit_object frame scale) (Frame.objects frame) ;;
   write [Lit nl])%M.

(** The first line of the script, and the blank line after it. *)
Definition header : text_t := [Lit ("from manim import *" ++ nl ++ nl)%string].

(** [with open(output_file, 'w') as manim_file: ...]. *)
Definition write_scenes (manim_frame_width manim_frame_height : Q)
    (frames : frames_t) : M unit :=
  (open_w ;;
   write header ;;
   for_each (emit_frame manim_frame_width manim_frame_height) frames)%M.

(** ** The program

    [config] is what was read from [manim_config_path], [excalidraw_data]
    what [json.load] returned for [input_file]. *)
Definition parse_excalidraw_to_manim (config : Config.t)
    (excalidraw_data : value) (output_file : string) : M unit :=
  (size <- lift (manim_frame_size config) ;;
   let '(manim_frame_width, manim_frame_height) := size in
   shapes <- lift (Py.get excalidraw_data "elements" (VList [])) ;;
   if negb (Py.truthy shapes) then
     print [Lit "No elements found in the Excalidraw file."]
   else
     items <- lift (Py.iterate shapes) ;;
     frames <- lift (aggregate items) ;;
     write_scenes manim_frame_width manim_frame_height frames ;;
     print [Lit "Manim script generated and saved to "; Str (VStr output_file)])%M.


(** ** Definitions of the specification *)

Module Spec.

(** Modelled from the spec: the error taxonomy of its section 7.
    [main.py] defines none of these classes. *)
Inductive error : Type :=
| DocumentError
| MissingFrameError (frame_id : Py.key)
| DivisionError
| ConfigError.

(** Modelled from the spec: the class of the taxonomy an exception of the
    program stands for.  A division by zero is the spec's
    [DivisionError], a string [float] rejects its malformed config
    value.  [StopIteration] is raised by [next] without an argument, so
    it names no frame id; it and the remaining exceptions have no class
    in the taxonomy. *)
Definition classify (e : exn) : option error :=
  match e with
  | ZeroDivisionError => Some DivisionError
  | ValueError => Some ConfigError
  | StopIteration | TypeError | AttributeError | KeyError
  | InterpolationSyntaxError | InterpolationMissingOptionError
  | InterpolationDepthError | OSError | JSONDecodeError
  | NotRepresented => None
  end.

(** Modelled from the spec: the reverse mapping of its section 8, from
    canvas coordinates back to the coordinates of the document "using the
    same scale and frame origin"; [main.py] has no such function.  It
    undoes [transform] step by step: divide by the scale, flip [y] back,
    add the centre of the frame. *)
Definition reverse_mapping (frame : Frame.t) (scale : Q) (obj_x obj_y : Q)
    : result (Q * Q) :=
  local_x <- Py.truediv (VNum obj_x) (VNum scale) ;;
  local_y <- Py.truediv (VNum (- obj_y)) (VNum scale) ;;
  frame_x <- Py.as_num (Frame.x frame) ;;
  half_frame_width <- Py.truediv (Frame.width frame) (VNum 2) ;;
  frame_y <- Py.as_num (Frame.y frame) ;;
  half_frame_height <- Py.truediv (Frame.height frame) (VNum 2) ;;
  Ok (local_x + frame_x + half_frame_width,
      local_y + frame_y + half_frame_height).

End Spec.

(** The scenario of the specification: a frame named "Intro Scene" and one
    rectangle in it. *)
Module IntroScene.
Local Open Scope string_scope.

Definition frame : value :=
  VDict [("id", VStr "f1"); ("type", VStr "frame");
         ("name", VStr "Intro Scene");
         ("x", VNum 0); ("y", VNum 0);
         ("width", VNum 1400); ("height", VNum 800)].

Definition rectangle : value :=
  VDict [("id", VStr "r1"); ("type", VStr "rectangle");
         ("frameId", VStr "f1");
         ("x", VNum 700); ("y", VNum 400);
         ("width", VNum 100); ("height", VNum 100)].

Definition document : value :=
  VDict [("elements", VList [frame; rectangle])].

(** What the run leaves in the output file when the rectangle is drawn
    at the given canvas coordinates. *)
Definition script (obj_x obj_y obj_width obj_height : Q) : list text_t :=
  [header;
   [Lit ("class FrameIntroSceneScene(Scene):" ++ nl)];
   [Lit ("    def construct(self):" ++ nl)];
   add_primitive "Rectangle" obj_x obj_y obj_width obj_height;
   [Lit nl]].
End IntroScene.

(** ** Predicates the properties are stated with *)

(** The shape is a record whose [frameId] can be a key of [frames]. *)
Definition hashable_frameId (shape : value) : bool :=
  match Py.get shape "frameId" VNone with
  | Ok frame_id => match Py.hash frame_id with
                   | Ok _ => true
                   | Raise _ => false
                   end
  | Raise _ => false
  end.

(** The shape is a record without a [frameId], or with a null one. *)
Definition no_frameId (shape : value) : bool :=
  match Py.get shape "frameId" VNone with
  | Ok VNone => true
  | _ => false
  end.

(** The shape has a [frameId], and it equals the key. *)
Definition member_of (frame_id : Py.key) (shape : value) : bool :=
  match Py.get shape "frameId" VNone with
  | Ok VNone => false
  | Ok v => Py.eq v frame_id
  | Raise _ => false
  end.

(** Some shape has the key as its [id]. *)
Definition resolves (shapes : list value) (frame_id : Py.key) : bool :=
  existsb (fun shape => match Py.get shape "id" VNone with
                        | Ok id => Py.eq id frame_id
                        | Raise _ => false
                        end) shapes.

(** The shape has a [frameId] that is the [id] of no shape. *)
Definition dangling (shapes : list value) (shape : value) : bool :=
  match Py.get shape "frameId" VNone with
  | Ok VNone => false
  | Ok v => match Py.hash v with
            | Ok frame_id => negb (resolves shapes frame_id)
            | Raise _ => false
            end
  | Raise _ => false
  end.


(** Every key of [frames] is the [id] of some shape. *)
Definition keys_resolved (shapes : list value) (frames : frames_t) : Prop :=
  Forall (fun k => resolves shapes k = true) (map fst frames).

(** A shape whose [frameId] is the [id] of no shape. *)
Module Ghost.
Local Open Scope string_scope.

Definition shapes : list value :=
  [VDict [("id", VStr "a"); ("type", VStr "rectangle");
          ("frameId", VStr "ghost");
          ("x", VNum 0); ("y", VNum 0);
          ("width", VNum 10); ("height", VNum 10)]].

Definition document : value := VDict [("elements", VList shapes)].
End Ghost.

(** A frame of 10 by 10 at the origin and an object of 2 by 2 in its
    corner. *)
Module Corner.
Definition frame : Frame.t :=
  {| Frame.width := VNum 10; Frame.height := VNum 10;
     Frame.x := VNum 0; Frame.y := VNum 0;
     Frame.name := VStr "a"; Frame.objects := [] |}.

Definition obj : Obj.t :=
  {| Obj.type := VStr "rectangle"; Obj.x := VNum 0; Obj.y := VNum 0;
     Obj.width := VNum 2; Obj.height := VNum 2;
     Obj.text := VStr ""; Obj.fontSize := VNum 0 |}.
End Corner.

(** Two frames, the second of width 0. *)
Module ZeroWidth.
Local Open Scope string_scope.

Definition good : Py.key * Frame.t :=
  (Py.KStr "f1",
   {| Frame.width := VNum 100; Frame.height := VNum 50;
      Frame.x := VNum 0; Frame.y := VNum 0;
      Frame.name := VStr "one"; Frame.objects := [] |}).

Definition flat : Py.key * Frame.t :=
  (Py.KStr "f2",
   {| Frame.width := VNum 0; Frame.height := VNum 50;
      Frame.x := VNum 0; Frame.y := VNum 0;
      Frame.name := VStr "two"; Frame.objects := [Corner.obj] |}).
End ZeroWidth.

(** A frame with a rectangle, an arrow and an ellipse. *)
Module Mixed.
Local Open Scope string_scope.

Definition arrow : Obj.t :=
  {| Obj.type := VStr "arrow"; Obj.x := VNum 1; Obj.y := VNum 1;
     Obj.width := VNum 3; Obj.height := VNum 0;
     Obj.text := VStr ""; Obj.fontSize := VNum 0 |}.

Definition ellipse : Obj.t :=
  {| Obj.type := VStr "ellipse"; Obj.x := VNum 4; Obj.y := VNum 4;
     Obj.width := VNum 2; Obj.height := VNum 1;
     Obj.text := VStr ""; Obj.fontSize := VNum 0 |}.

Definition objects : list Obj.t := [Corner.obj; arrow; ellipse].
End Mixed.

(** Shapes outside any frame. *)
Module Loose.
Local Open Scope string_scope.

Definition shapes : list value :=
  [VDict [("id", VStr "a"); ("type", VStr "rectangle");
          ("x", VNum 0); ("y", VNum 0);
          ("width", VNum 10); ("height", VNum 10)];
   VDict [("id", VStr "b"); ("type", VStr "text"); ("frameId", VNone);
          ("x", VNum 5); ("y", VNum 5); ("text", VStr "hello")]].

Definition document : value := VDict [("elements", VList shapes)].
End Loose.

(** Configurations: a [CLI] section that sets neither dimension, one that
    sets the width, and one whose width is not a number. *)
Module Cfg.
Local Open Scope string_scope.




End Cfg.

(** The objects are, one for one and in order, the objects made from the
    shapes. *)
Definition objects_of (objs : list Obj.t) (members : list value) : Prop :=
  Forall2 (fun obj shape => make_object shape = Ok obj) objs members.

Definition same_geometry (a b : Frame.t) : Prop :=
  Frame.width a = Frame.width b /\ Frame.height a = Frame.height b
  /\ Frame.x a = Frame.x b /\ Frame.y a = Frame.y b
  /\ Frame.name a = Frame.name b.

(** The shape the frame search finds for the key gave the frame its
    geometry. *)
Definition supplied_by (shapes : list value) (frame_id : Py.key)
    (shape : value) (frame : Frame.t) : Prop :=
  find_frame shapes frame_id = Ok shape
  /\ exists entry, make_frame shape = Ok entry /\ same_geometry entry frame.

(** No two keys are equal. *)
Fixpoint keys_distinct (keys : list Py.key) : Prop :=
  match keys with
  | [] => True
  | k :: keys' =>
      Forall (fun k' => Py.key_eqb k' k = false) keys' /\ keys_distinct keys'
  end.

(** What holds of [frames] when the loop has visited the shapes [done]. *)
Definition aggregated (shapes done : list value) (frames : frames_t) : Prop :=
  (forall k frame, In (k, frame) frames ->
     (exists shape, supplied_by shapes k shape frame)
     /\ objects_of (Frame.objects frame) (filter (member_of k) done))
  /\ keys_distinct (map fst frames)
  /\ (forall shape k, In shape done -> member_of k shape = true ->
                      contains k frames = true).

(** A frame shape that names itself as its frame. *)
Module Self.
Local Open Scope string_scope.

Definition shape : value :=
  VDict [("id", VStr "f1"); ("type", VStr "frame"); ("frameId", VStr "f1");
         ("name", VStr "Self");
         ("x", VNum 0); ("y", VNum 0);
         ("width", VNum 100); ("height", VNum 100)].

Definition shapes : list value := [shape].
End Self.




(** An object in the middle of the frame of [Corner]. *)
Module Centred.
Definition obj : Obj.t :=
  {| Obj.type := VStr "ellipse"; Obj.x := VNum 4; Obj.y := VNum 4;
     Obj.width := VNum 2; Obj.height := VNum 2;
     Obj.text := VStr ""; Obj.fontSize := VNum 0 |}.
End Centred.

(** The shape has a [frameId] that is set. *)
Definition has_frameId (shape : value) : bool :=
  match Py.get shape "frameId" VNone with
  | Ok VNone => false
  | Ok _ => true
  | Raise _ => false
  end.

(** The keys the shapes name as their frames, one for every shape whose
    [frameId] is set and hashable, in the order of the shapes. *)
Fixpoint frame_ids (shapes : list value) : list Py.key :=
  match shapes with
  | [] => []
  | shape :: shapes' =>
      match Py.get shape "frameId" VNone with
      | Ok VNone => frame_ids shapes'
      | Ok v => match Py.hash v with
                | Ok k => k :: frame_ids shapes'
                | Raise _ => frame_ids shapes'
                end
      | Raise _ => frame_ids shapes'
      end
  end.

(** The keys seen so far, with one more: it goes to the end unless an equal
    key is there already. *)
Definition first_seen (seen : list Py.key) (k : Py.key) : list Py.key :=
  if existsb (fun k' => Py.key_eqb k' k) seen then seen else seen ++ [k].

(** The first occurrence of every key, in order. *)
Definition first_occurrences (keys : list Py.key) : list Py.key :=
  fold_left first_seen keys [].

(** How many objects the frames hold together. *)
Definition total_objects (frames : frames_t) : nat :=
  List.length (flat_map (fun entry => Frame.objects (snd entry)) frames).

(** Three shapes in two frames, the frames last. *)
Module TwoFrames.
Local Open Scope string_scope.

Definition shapes : list value :=
  [VDict [("id", VStr "a"); ("type", VStr "rectangle"); ("frameId", VStr "g");
          ("x", VNum 1); ("y", VNum 1); ("width", VNum 2); ("height", VNum 2)];
   VDict [("id", VStr "b"); ("type", VStr "ellipse"); ("frameId", VStr "f");
          ("x", VNum 3); ("y", VNum 3); ("width", VNum 2); ("height", VNum 2)];
   VDict [("id", VStr "c"); ("type", VStr "text"); ("frameId", VStr "g");
          ("x", VNum 5); ("y", VNum 5); ("text", VStr "hi");
          ("fontSize", VNum 20)];
   VDict [("id", VStr "f"); ("type", VStr "frame"); ("name", VStr "first");
          ("x", VNum 0); ("y", VNum 0);
          ("width", VNum 10); ("height", VNum 10)];
   VDict [("id", VStr "g"); ("type", VStr "frame"); ("name", VStr "second");
          ("x", VNum 20); ("y", VNum 0);
          ("width", VNum 10); ("height", VNum 10)];
   VDict [("id", VStr "g"); ("type", VStr "frame"); ("name", VStr "twin");
          ("x", VNum 40); ("y", VNum 0);
          ("width", VNum 5); ("height", VNum 5)]].
End TwoFrames.

(** No shape before [shape] has the key as its [id]; [shape] has. *)
Definition first_with_id (frame_id : Py.key) (before : list value)
    (shape : value) : Prop :=
  (forall s, In s before ->
             exists id, Py.get s "id" VNone = Ok id /\ Py.eq id frame_id = false)
  /\ exists id, Py.get shape "id" VNone = Ok id /\ Py.eq id frame_id = true.

(** Shapes that stop the aggregation: one that is no record, one whose
    [frameId] is a list. *)
Module Broken.
Local Open Scope string_scope.

Definition not_a_record : value := VStr "rectangle".

Definition listed_frameId : value :=
  VDict [("id", VStr "z"); ("type", VStr "rectangle");
         ("frameId", VList [VStr "f"])].
End Broken.

(** The world after more prints and more writes: nothing printed or
    written before is lost, and a file that was not open stays so. *)
Definition grown (w : world) (printed written : list text_t) : world :=
  {| stdout := stdout w ++ printed;
     manim_file := match manim_file w with
                   | Some l => Some (l ++ written)
                   | None => None
                   end |}.

(** A statement that only appends to the world. *)
Definition appends {A : Type} (m : M A) : Prop :=
  forall w r w', m w = (r, w') -> exists printed written, w' = grown w printed written.

(** The values a formatted string shows with [repr], in order. *)
Fixpoint reprs (t : text_t) : list value :=
  match t with
  | [] => []
  | Repr v :: t' => v :: reprs t'
  | _ :: t' => reprs t'
  end.



(** How often the character occurs in the string. *)
Fixpoint occurrences (c : ascii) (s : string) : nat :=
  match s with
  | EmptyString => O
  | String c' s' => if Ascii.eqb c' c then S (occurrences c s') else occurrences c s'
  end.

(** A frame without a name, as Excalidraw writes it. *)
Module Unnamed.
Local Open Scope string_scope.

Definition item : Py.key * Frame.t :=
  (Py.KStr "f3",
   {| Frame.width := VNum 100; Frame.height := VNum 50;
      Frame.x := VNum 0; Frame.y := VNum 0;
      Frame.name := VNone; Frame.objects := [Corner.obj] |}).
End Unnamed.

(** An object without coordinates. *)
Module Placeless.
Local Open Scope string_scope.

Definition obj : Obj.t :=
  {| Obj.type := VStr "rectangle"; Obj.x := VNone; Obj.y := VNone;
     Obj.width := VNum 0; Obj.height := VNum 0;
     Obj.text := VStr ""; Obj.fontSize := VNum 0 |}.
End Placeless.

(** ** The command line

    The block under [if __name__ == "__main__"]: what it does with
    [sys.argv], up to the call of [parse_excalidraw_to_manim]. *)
Inductive command : Type :=
| Exit (printed : text_t) (status : Z)
| Call (input_file output_file manim_config_path : string).

Definition usage : text_t :=
  [Lit "Usage: python3 excalidraw-to-manim.py <input.excalidraw> <output.py>"].

Definition main (argv : list string) : command :=
  if (List.length argv <? 3)%nat then Exit usage 1
  else
    let input_file := nth 1 argv EmptyString in
    let output_file := nth 2 argv EmptyString in
    let manim_config_path := "manim.cfg"%string in
    let manim_config_path :=
      if (3 <? List.length argv)%nat then nth 3 argv EmptyString
      else manim_config_path in
    Call input_file output_file manim_config_path.

(** What the run leaves when it finds no elements, and the line it prints
    last when it has written the script. *)
Definition no_elements : world :=
  {| stdout := [[Lit "No elements found in the Excalidraw file."]];
     manim_file := None |}.

Definition saved_to (output_file : string) : text_t :=
  [Lit "Manim script generated and saved to "; Str (VStr output_file)].

(** ** Frames that can be written *)






(** * Properties *)

(** ** The geometric transform *)

Lemma Qeq_bool_false (p q : Q) : ~ p == q -> Qeq_bool p q = false.
Proof.
  intro H. destruct (Qeq_bool p q) eqn:E; [|reflexivity].
  apply Qeq_bool_iff in E. contradiction.
Qed.

Lemma truediv_num (p q : Q) :
  ~ q == 0 -> Py.truediv (VNum p) (VNum q) = Ok (p / q).
Proof.
  intro H. unfold Py.truediv. simpl. now rewrite (Qeq_bool_false _ _ H).
Qed.

Lemma truediv_two (v : value) (p : Q) :
  Py.as_num v = Ok p -> Py.truediv v (VNum 2) = Ok (p / 2).
Proof.
  intro H. unfold Py.truediv. rewrite H. reflexivity.
Qed.

Lemma transform_numeric (frame : Frame.t) (scale : Q) (obj : Obj.t)
    (ox oy ow oh fx fy fw fh : Q) :
  Py.as_num (Obj.x obj) = Ok ox ->
  Py.as_num (Obj.y obj) = Ok oy ->
  Py.as_num (Obj.width obj) = Ok ow ->
  Py.as_num (Obj.height obj) = Ok oh ->
  Py.as_num (Frame.x frame) = Ok fx ->
  Py.as_num (Frame.y frame) = Ok fy ->
  Py.as_num (Frame.width frame) = Ok fw ->
  Py.as_num (Frame.height frame) = Ok fh ->
  transform frame scale obj
  = Ok ((ox - fx - fw / 2 + ow / 2) * scale,
        (- (oy - fy - fh / 2 + oh / 2)) * scale,
        ow * scale,
        oh * scale).
Proof.
  intros Hox Hoy How Hoh Hfx Hfy Hfw Hfh.
  unfold transform, Py.sub, Py.mul_float.
  rewrite Hox, Hfx, Hoy, Hfy, How, Hoh. cbn [bind].
  rewrite (truediv_two _ _ Hfw), (truediv_two _ _ How),
          (truediv_two _ _ Hfh), (truediv_two _ _ Hoh).
  reflexivity.
Qed.

(** C1.  In a frame whose [x], [y], [width] and [height] are the numbers
    [fx], [fy], [fw], [fh], an object whose [x], [y], [width] and [height]
    are the numbers [ox], [oy], [ow], [oh] is mapped, for the scale
    [scale], to
    [obj_x = (ox - fx - fw/2 + ow/2) * scale],
    [obj_y = -(oy - fy - fh/2 + oh/2) * scale],
    [obj_width = ow * scale] and [obj_height = oh * scale];
    these are the coordinates its drawing statement is built from. *)
Theorem C1_canvas_coordinates (frame : Frame.t) (scale : Q) (obj : Obj.t)
    (ox oy ow oh fx fy fw fh : Q) :
  Py.as_num (Obj.x obj) = Ok ox ->
  Py.as_num (Obj.y obj) = Ok oy ->
  Py.as_num (Obj.width obj) = Ok ow ->
  Py.as_num (Obj.height obj) = Ok oh ->
  Py.as_num (Frame.x frame) = Ok fx ->
  Py.as_num (Frame.y frame) = Ok fy ->
  Py.as_num (Frame.width frame) = Ok fw ->
  Py.as_num (Frame.height frame) = Ok fh ->
  let canvas := ((ox - fx - fw / 2 + ow / 2) * scale,
                 (- (oy - fy - fh / 2 + oh / 2)) * scale,
                 ow * scale,
                 oh * scale) in
  transform frame scale obj = Ok canvas
  /\ emit_object frame scale obj = draw_object obj canvas.
Proof.
  intros Hox Hoy How Hoh Hfx Hfy Hfw Hfh canvas.
  assert (Ht : transform frame scale obj = Ok canvas)
    by now apply transform_numeric.
  split; [exact Ht|].
  unfold emit_object. rewrite Ht. reflexivity.
Qed.

(** The ellipse of [Mixed] in the frame of [Corner], at scale 4/5. *)
Lemma C1_canvas_coordinates_witness :
  transform Corner.frame (4 # 5) Mixed.ellipse
  = Ok ((4 - 0 - 10 / 2 + 2 / 2) * (4 # 5),
        (- (4 - 0 - 10 / 2 + 1 / 2)) * (4 # 5),
        2 * (4 # 5), 1 * (4 # 5)).
Proof.
  apply (C1_canvas_coordinates Corner.frame (4 # 5) Mixed.ellipse
           4 4 2 1 0 0 10 10); reflexivity.
Defined.




Lemma truediv_values (a b : value) (p q : Q) :
  Py.as_num a = Ok p -> Py.as_num b = Ok q -> ~ q == 0 ->
  Py.truediv a b = Ok (p / q).
Proof.
  intros Ha Hb Hq. unfold Py.truediv. rewrite Ha, Hb. cbn [bind].
  now rewrite (Qeq_bool_false _ _ Hq).
Qed.

Lemma Qdiv_nonzero (p q : Q) : ~ p == 0 -> ~ q == 0 -> ~ p / q == 0.
Proof.
  intros Hp Hq H. apply Hp.
  setoid_replace p with (p / q * q) by (field; exact Hq).
  rewrite H. ring.
Qed.

Lemma Qmin_nonzero (p q : Q) : ~ p == 0 -> ~ q == 0 -> ~ Qmin p q == 0.
Proof.
  intros Hp Hq. destruct (Q.min_spec p q) as [[_ ->] | [_ ->]]; assumption.
Qed.

(** C5 (as amended).  For a frame with numeric geometry whose width and
    height are not zero, canvas dimensions that are not zero, and an object
    with numeric geometry, the reverse mapping applied to the transformed
    centre of the object gives back its centre
    [(ox + ow/2, oy + oh/2)], exactly, in rational arithmetic. *)
Theorem C5_round_trip (Cw Ch : Q) (frame : Frame.t) (obj : Obj.t)
    (ox oy ow oh fx fy fw fh : Q) :
  Py.as_num (Obj.x obj) = Ok ox ->
  Py.as_num (Obj.y obj) = Ok oy ->
  Py.as_num (Obj.width obj) = Ok ow ->
  Py.as_num (Obj.height obj) = Ok oh ->
  Py.as_num (Frame.x frame) = Ok fx ->
  Py.as_num (Frame.y frame) = Ok fy ->
  Py.as_num (Frame.width frame) = Ok fw ->
  Py.as_num (Frame.height frame) = Ok fh ->
  ~ fw == 0 -> ~ fh == 0 -> ~ Cw == 0 -> ~ Ch == 0 ->
  exists (scale obj_x obj_y obj_width obj_height center_x center_y : Q),
    frame_scale Cw Ch (Frame.width frame) (Frame.height frame) = Ok scale
    /\ transform frame scale obj = Ok (obj_x, obj_y, obj_width, obj_height)
    /\ Spec.reverse_mapping frame scale obj_x obj_y = Ok (center_x, center_y)
    /\ center_x == ox + ow / 2
    /\ center_y == oy + oh / 2.
Proof.
  intros Hox Hoy How Hoh Hfx Hfy Hfw Hfh Hw Hh HCw HCh.
  set (scale := Qmin (Cw / fw) (Ch / fh)).
  assert (Hscale : ~ scale == 0)
    by (apply Qmin_nonzero; apply Qdiv_nonzero; assumption).
  pose proof (transform_numeric frame scale obj ox oy ow oh fx fy fw fh
                Hox Hoy How Hoh Hfx Hfy Hfw Hfh) as Ht.
  exists scale. do 6 eexists.
  split.
  { unfold frame_scale.
    rewrite (truediv_values _ _ Cw fw), (truediv_values _ _ Ch fh); trivial. }
  split; [exact Ht|].
  split.
  { unfold Spec.reverse_mapping.
    rewrite !(truediv_num _ _ Hscale), Hfx, Hfy. cbn [bind].
    rewrite (truediv_two _ _ Hfw), (truediv_two _ _ Hfh). reflexivity. }
  split; field; exact Hscale.
Qed.

Lemma C5_round_trip_witness :
  exists (scale obj_x obj_y obj_width obj_height center_x center_y : Q),
    frame_scale 14 8 (Frame.width Corner.frame) (Frame.height Corner.frame)
    = Ok scale
    /\ transform Corner.frame scale Corner.obj
       = Ok (obj_x, obj_y, obj_width, obj_height)
    /\ Spec.reverse_mapping Corner.frame scale obj_x obj_y
       = Ok (center_x, center_y)
    /\ center_x == 0 + 2 / 2
    /\ center_y == 0 + 2 / 2.
Proof.
  apply (C5_round_trip 14 8 Corner.frame Corner.obj 0 0 2 2 0 0 10 10);
    (reflexivity || discriminate).
Defined.

(** C5 as stated fails for a canvas of width 0: the frame of 10 by 10 gets
    the scale 0, its object is mapped to the centre of the canvas, and the
    reverse mapping, which divides by the scale, gives nothing back. *)
Lemma C5_counterexample :
  exists (scale obj_x obj_y obj_width obj_height : Q),
    frame_scale 0 8 (Frame.width Corner.frame) (Frame.height Corner.frame)
    = Ok scale
    /\ transform Corner.frame scale Corner.obj
       = Ok (obj_x, obj_y, obj_width, obj_height)
    /\ Spec.reverse_mapping Corner.frame scale obj_x obj_y
       = Raise ZeroDivisionError.
Proof.
  do 5 eexists. repeat split; vm_compute; reflexivity.
Qed.

(** ** The scenario "Intro Scene" *)

(** C3 (as amended).  For the frame "Intro Scene" at (0, 0) of 1400 by 800
    with the rectangle at (700, 400) of 100 by 100 and the default canvas of
    14 by 8, the run succeeds, logs the scale 0.01 and writes the class
    [FrameIntroSceneScene] with one rectangle of width 1 and height 1
    centred at (0.5, -0.5). *)
Theorem C3_intro_scene :
  exists (scale obj_x obj_y obj_width obj_height : Q) (out : world),
    parse_excalidraw_to_manim Config.empty IntroScene.document "out.py" initial
    = (Ok tt, out)
    /\ manim_file out
       = Some (IntroScene.script obj_x obj_y obj_width obj_height)
    /\ In [Lit "  - Scale: "; Str (VNum scale)] (stdout out)
    /\ scene_name (VStr "Intro Scene") = Ok "FrameIntroSceneScene"%string
    /\ scale == 1 # 100
    /\ obj_x == 1 # 2 /\ obj_y == - (1 # 2)
    /\ obj_width == 1 /\ obj_height == 1.
Proof.
  do 5 eexists. eexists.
  split; [vm_compute; reflexivity|].
  split; [reflexivity|].
  split; [simpl; do 5 right; left; reflexivity|].
  repeat split; reflexivity.
Qed.

(** C3 as stated fails: no run on the scenario leaves a script whose
    rectangle is centred at (0, 0). *)
Lemma C3_counterexample :
  ~ exists (obj_x obj_y obj_width obj_height : Q) (out : world),
      parse_excalidraw_to_manim Config.empty IntroScene.document "out.py"
        initial = (Ok tt, out)
      /\ manim_file out
         = Some (IntroScene.script obj_x obj_y obj_width obj_height)
      /\ obj_x == 0 /\ obj_y == 0 /\ obj_width == 1 /\ obj_height == 1.
Proof.
  intros (obj_x & obj_y & obj_width & obj_height & out & Hrun & Hfile & Hx & _).
  vm_compute in Hrun. injection Hrun as <-.
  vm_compute in Hfile. injection Hfile as _ _ <- _.
  discriminate Hx.
Qed.

(** ** Aggregation *)

Section KeyEquality.

Lemma Qeq_bool_sym (p q : Q) : Qeq_bool p q = Qeq_bool q p.
Proof.
  destruct (Qeq_bool p q) eqn:E, (Qeq_bool q p) eqn:E'; trivial.
  - apply Qeq_bool_iff in E. symmetry in E. apply Qeq_bool_iff in E.
    congruence.
  - apply Qeq_bool_iff in E'. symmetry in E'. apply Qeq_bool_iff in E'.
    congruence.
Qed.

Lemma Qeq_bool_trans' (p q r : Q) :
  Qeq_bool p q = true -> Qeq_bool q r = true -> Qeq_bool p r = true.
Proof.
  rewrite !Qeq_bool_iff. intros H1 H2. now rewrite H1.
Qed.

Lemma key_eqb_refl (k : Py.key) : Py.key_eqb k k = true.
Proof.
  destruct k as [|b|q|s]; simpl.
  - reflexivity.
  - destruct b; reflexivity.
  - apply Qeq_bool_iff. reflexivity.
  - apply String.eqb_refl.
Qed.

Lemma key_eqb_sym (a b : Py.key) : Py.key_eqb a b = Py.key_eqb b a.
Proof.
  destruct a, b; simpl; trivial;
    try apply Qeq_bool_sym; apply String.eqb_sym.
Qed.

Lemma key_eqb_trans (a b c : Py.key) :
  Py.key_eqb a b = true -> Py.key_eqb b c = true -> Py.key_eqb a c = true.
Proof.
  destruct a, b, c; simpl; try discriminate; trivial;
    try apply Qeq_bool_trans'.
  rewrite !String.eqb_eq. congruence.
Qed.

End KeyEquality.

Lemma value_is_none (v : value) : v = VNone \/ v <> VNone.
Proof. destruct v; (now left) || (right; discriminate). Qed.

Lemma hashable_frameId_inv (shape : value) :
  hashable_frameId shape = true ->
  exists d v k, shape = VDict d
                /\ Py.get shape "frameId" VNone = Ok v /\ Py.hash v = Ok k.
Proof.
  unfold hashable_frameId. intro H.
  destruct shape as [| | | | |d]; try discriminate H.
  simpl in H |- *.
  destruct (Py.hash (Py.dict_get d "frameId" VNone)) as [k|] eqn:E;
    [|discriminate H].
  now exists d, (Py.dict_get d "frameId" VNone), k.
Qed.

Lemma make_frame_record (d : dict) : exists frame, make_frame (VDict d) = Ok frame.
Proof. eexists. reflexivity. Qed.

Lemma make_object_record (d : dict) : exists obj, make_object (VDict d) = Ok obj.
Proof. eexists. reflexivity. Qed.

(** The body of the loop for a shape whose [frameId] is set and hashable. *)
Lemma aggregate_shape_member (shapes : list value) (shape v : value)
    (k : Py.key) (frames : frames_t) :
  Py.get shape "frameId" VNone = Ok v -> v <> VNone -> Py.hash v = Ok k ->
  aggregate_shape shapes shape frames
  = (frames1 <- (if contains k frames then Ok frames
                 else frame <- find_frame shapes k ;;
                      entry <- make_frame frame ;;
                      Ok (frames ++ [(k, entry)])) ;;
     object <- make_object shape ;;
     Ok (append_object k object frames1)).
Proof.
  intros Hget Hv Hk. unfold aggregate_shape. rewrite Hget. cbn [bind].
  destruct v; try congruence; rewrite Hk; reflexivity.
Qed.

Lemma aggregate_shape_skip (shapes : list value) (shape : value)
    (frames : frames_t) :
  Py.get shape "frameId" VNone = Ok VNone ->
  aggregate_shape shapes shape frames = Ok frames.
Proof. intro H. unfold aggregate_shape. now rewrite H. Qed.

Lemma find_frame_Ok (shapes : list value) (k : Py.key) (frame : value) :
  find_frame shapes k = Ok frame ->
  In frame shapes
  /\ exists id, Py.get frame "id" VNone = Ok id /\ Py.eq id k = true.
Proof.
  induction shapes as [|shape shapes IH]; simpl; [discriminate|].
  destruct (Py.get shape "id" VNone) as [id|] eqn:Hid; simpl; [|discriminate].
  destruct (Py.eq id k) eqn:Heq.
  - intros [= <-]. split; [now left | now exists id].
  - intro H. destruct (IH H) as [Hin Hex]. split; [now right | exact Hex].
Qed.

Lemma resolves_eqb (shapes : list value) (k k' : Py.key) :
  Py.key_eqb k k' = true -> resolves shapes k = true -> resolves shapes k' = true.
Proof.
  intro Hk. unfold resolves. rewrite !existsb_exists.
  intros (shape & Hin & Hs). exists shape. split; [exact Hin|].
  destruct (Py.get shape "id" VNone) as [id|]; [|discriminate].
  unfold Py.eq in *. destruct (Py.hash id); [|discriminate].
  eapply key_eqb_trans; eassumption.
Qed.

Lemma find_frame_resolves (shapes : list value) (k : Py.key) :
  forallb hashable_frameId shapes = true ->
  if resolves shapes k
  then exists d, find_frame shapes k = Ok (VDict d)
  else find_frame shapes k = Raise StopIteration.
Proof.
  induction shapes as [|shape shapes IH]; simpl; [reflexivity|].
  rewrite andb_true_iff. intros [Hs Hall].
  destruct (hashable_frameId_inv _ Hs) as (d & _ & _ & -> & _).
  simpl. destruct (Py.eq (Py.dict_get d "id" VNone) k); simpl.
  - now exists d.
  - exact (IH Hall).
Qed.

Lemma append_object_keys (k : Py.key) (object : Obj.t) (frames : frames_t) :
  map fst (append_object k object frames) = map fst frames.
Proof.
  induction frames as [|[k' frame] frames IH]; simpl; [reflexivity|].
  destruct (Py.key_eqb k' k); simpl; [reflexivity | now rewrite IH].
Qed.

Lemma contains_resolved (shapes : list value) (frames : frames_t) (k : Py.key) :
  keys_resolved shapes frames -> contains k frames = true ->
  resolves shapes k = true.
Proof.
  unfold keys_resolved, contains. rewrite Forall_forall, existsb_exists.
  intros H ([k' frame] & Hin & Hk). simpl in Hk.
  apply (resolves_eqb shapes k' k Hk). apply H.
  change k' with (fst (k', frame)). now apply in_map.
Qed.

Lemma aggregate_loop_dangling (shapes : list value) :
  forallb hashable_frameId shapes = true ->
  forall (rest : list value) (frames : frames_t),
    incl rest shapes -> keys_resolved shapes frames ->
    existsb (dangling shapes) rest = true ->
    aggregate_loop shapes rest frames = Raise StopIteration.
Proof.
  intro Hall. induction rest as [|shape rest IH]; intros frames Hincl Hkeys Hex.
  - discriminate Hex.
  - assert (Hs : hashable_frameId shape = true).
    { rewrite forallb_forall in Hall. apply Hall, Hincl. now left. }
    assert (Hrest : incl rest shapes) by (intros s Hin; apply Hincl; now right).
    destruct (hashable_frameId_inv _ Hs) as (d & v & k & -> & Hget & Hk).
    simpl in Hex |- *. unfold dangling in Hex. rewrite Hget in Hex.
    destruct (value_is_none v) as [-> | Hv].
    + rewrite (aggregate_shape_skip _ _ _ Hget). simpl in Hex |- *.
      now apply IH.
    + rewrite (aggregate_shape_member _ _ v k _ Hget Hv Hk).
      assert (Hdangling : existsb (dangling shapes) rest = true
                          \/ resolves shapes k = false).
      { destruct v; try congruence; rewrite Hk in Hex;
          destruct (resolves shapes k); simpl in Hex; auto. }
      destruct (make_object_record d) as [obj Hobj]. rewrite Hobj.
      destruct (contains k frames) eqn:Hc.
      * cbn [bind]. apply IH; trivial.
        -- unfold keys_resolved. now rewrite append_object_keys.
        -- destruct Hdangling as [H | H]; [exact H|].
           rewrite (contains_resolved _ _ _ Hkeys Hc) in H. discriminate H.
      * pose proof (find_frame_resolves shapes k Hall) as Hfind.
        destruct (resolves shapes k) eqn:Hr.
        -- destruct Hfind as [fd ->]. cbn [bind].
           destruct (make_frame_record fd) as [entry ->]. cbn [bind].
           apply IH; trivial.
           ++ unfold keys_resolved. rewrite append_object_keys, map_app.
              apply Forall_app. split; [exact Hkeys|].
              constructor; [exact Hr | constructor].
           ++ destruct Hdangling as [H | H]; [exact H | discriminate H].
        -- rewrite Hfind. reflexivity.
Qed.

(** *** What the aggregation builds *)

Lemma contains_Forall (k : Py.key) (frames : frames_t) :
  contains k frames = false
  <-> Forall (fun k' => Py.key_eqb k' k = false) (map fst frames).
Proof.
  unfold contains. induction frames as [|[k' frame] frames IH]; simpl.
  - split; [constructor | reflexivity].
  - rewrite orb_false_iff, IH. split.
    + intros [H1 H2]. now constructor.
    + intro H. inversion H; subst. now split.
Qed.

Lemma contains_keys (k : Py.key) (frames frames' : frames_t) :
  map fst frames = map fst frames' -> contains k frames = contains k frames'.
Proof.
  intro H. destruct (contains k frames') eqn:E.
  - destruct (contains k frames) eqn:E'; [reflexivity|].
    apply contains_Forall in E'. rewrite H in E'.
    apply contains_Forall in E'. congruence.
  - apply contains_Forall. rewrite H. now apply contains_Forall.
Qed.

Lemma contains_eqb (k k' : Py.key) (frames : frames_t) :
  Py.key_eqb k k' = true -> contains k frames = true -> contains k' frames = true.
Proof.
  unfold contains. rewrite !existsb_exists.
  intros Hk (entry & Hin & He). exists entry. split; [exact Hin|].
  eapply key_eqb_trans; eassumption.
Qed.

Lemma contains_app (k : Py.key) (frames frames' : frames_t) :
  contains k (frames ++ frames') = contains k frames || contains k frames'.
Proof. unfold contains. apply existsb_app. Qed.

Lemma keys_distinct_snoc (keys : list Py.key) (k : Py.key) :
  keys_distinct keys -> Forall (fun k' => Py.key_eqb k' k = false) keys ->
  keys_distinct (keys ++ [k]).
Proof.
  induction keys as [|k1 keys IH]; simpl.
  - intros _ _. split; [constructor | exact I].
  - intros [H1 Hd] Hk. inversion Hk as [|? ? Hk1 Hks]; subst. split.
    + apply Forall_app. split; [exact H1|].
      constructor; [now rewrite key_eqb_sym | constructor].
    + now apply IH.
Qed.

Lemma member_of_hashed (shape v : value) (k k' : Py.key) :
  Py.get shape "frameId" VNone = Ok v -> v <> VNone -> Py.hash v = Ok k ->
  member_of k' shape = Py.key_eqb k k'.
Proof.
  intros Hget Hv Hk. unfold member_of, Py.eq. rewrite Hget.
  destruct v; try congruence; now rewrite Hk.
Qed.

Lemma filter_none {A : Type} (f : A -> bool) (l : list A) :
  (forall a, In a l -> f a = false) -> filter f l = [].
Proof.
  induction l as [|a l IH]; intro H; simpl; [reflexivity|].
  rewrite (H a (or_introl eq_refl)). apply IH. intros b Hb. apply H. now right.
Qed.

Lemma filter_snoc {A : Type} (f : A -> bool) (l : list A) (a : A) :
  filter f (l ++ [a]) = filter f l ++ (if f a then [a] else []).
Proof. rewrite filter_app. reflexivity. Qed.

Lemma make_frame_objects (shape : value) (entry : Frame.t) :
  make_frame shape = Ok entry -> Frame.objects entry = [].
Proof.
  unfold make_frame. destruct shape; try discriminate. simpl.
  now intros [= <-].
Qed.

Lemma same_geometry_refl (frame : Frame.t) : same_geometry frame frame.
Proof. now repeat split. Qed.

(** [frames[frame_id]["objects"].append(object)] changes the one entry
    whose key equals [frame_id]. *)
Lemma append_object_In (k : Py.key) (obj : Obj.t) (frames : frames_t)
    (k' : Py.key) (frame' : Frame.t) :
  keys_distinct (map fst frames) ->
  In (k', frame') (append_object k obj frames) ->
  (Py.key_eqb k' k = false /\ In (k', frame') frames)
  \/ (Py.key_eqb k' k = true
      /\ exists frame, In (k', frame) frames
                       /\ frame' = Frame.append obj frame).
Proof.
  induction frames as [|[k1 frame1] frames IH]; simpl; [intros _ []|].
  intros [H1 Hd]. destruct (Py.key_eqb k1 k) eqn:E; simpl.
  - intros [[= <- <-] | Hin].
    + right. split; [exact E|]. exists frame1. split; [now left | reflexivity].
    + left. split; [|now right].
      rewrite Forall_forall in H1.
      assert (Hk' : Py.key_eqb k' k1 = false).
      { apply H1. change k' with (fst (k', frame')). now apply in_map. }
      destruct (Py.key_eqb k' k) eqn:E'; [|reflexivity].
      rewrite key_eqb_sym in E.
      now rewrite (key_eqb_trans _ _ _ E' E) in Hk'.
  - intros [[= <- <-] | Hin].
    + left. split; [exact E | now left].
    + destruct (IH Hd Hin) as [[Hk Hin'] | (Hk & frame & Hin' & ->)].
      * left. split; [exact Hk | now right].
      * right. split; [exact Hk|]. exists frame. split; [now right | reflexivity].
Qed.

(** C4 (as amended).  When every shape is a record whose [frameId] is
    hashable (null, a boolean, a number or a string), and some shape has a
    [frameId] that is the [id] of no shape, the aggregation fails with
    Python's [StopIteration], raised by the frame search without naming the
    frame id; the run ends with it before anything is printed and before
    the output file is opened. *)
Theorem C4_dangling_frameId (config : Config.t) (size : Q * Q)
    (excalidraw_data : value) (shapes : list value) (output_file : string) :
  manim_frame_size config = Ok size ->
  Py.get excalidraw_data "elements" (VList []) = Ok (VList shapes) ->
  forallb hashable_frameId shapes = true ->
  existsb (dangling shapes) shapes = true ->
  aggregate shapes = Raise StopIteration
  /\ parse_excalidraw_to_manim config excalidraw_data output_file initial
     = (Raise StopIteration, initial).
Proof.
  intros Hsize Hget Hall Hex.
  assert (Hagg : aggregate shapes = Raise StopIteration).
  { apply aggregate_loop_dangling; trivial.
    - apply incl_refl.
    - constructor. }
  split; [exact Hagg|].
  unfold parse_excalidraw_to_manim, bindM, lift.
  rewrite Hsize. destruct size as [w h]. rewrite Hget.
  destruct shapes as [|shape shapes]; [discriminate Hex|].
  cbn [Py.truthy negb Py.iterate]. now rewrite Hagg.
Qed.

Lemma C4_dangling_frameId_witness :
  aggregate Ghost.shapes = Raise StopIteration
  /\ parse_excalidraw_to_manim Config.empty Ghost.document "out.py" initial
     = (Raise StopIteration, initial).
Proof.
  apply (C4_dangling_frameId Config.empty (14, 8) Ghost.document Ghost.shapes);
    reflexivity.
Defined.

(** C4 as stated fails: the shape whose [frameId] is "ghost", the [id] of no
    shape, makes the aggregation raise an exception that is no
    [MissingFrameError] naming "ghost". *)
Lemma C4_counterexample :
  existsb (dangling Ghost.shapes) Ghost.shapes = true
  /\ ~ exists e : exn,
         aggregate Ghost.shapes = Raise e
         /\ Spec.classify e = Some (Spec.MissingFrameError (Py.KStr "ghost")).
Proof.
  split; [reflexivity|].
  intros (e & Hagg & Hclass).
  vm_compute in Hagg. injection Hagg as <-. discriminate Hclass.
Qed.

(** A frame met for the first time enters [frames] with no object. *)
Lemma aggregated_new_frame (shapes done : list value) (frames : frames_t)
    (k : Py.key) (shape : value) (entry : Frame.t) :
  aggregated shapes done frames ->
  contains k frames = false ->
  find_frame shapes k = Ok shape -> make_frame shape = Ok entry ->
  aggregated shapes done (frames ++ [(k, entry)]).
Proof.
  intros (Hobjs & Hdistinct & Hseen) Hc Hfind Hentry. repeat split.
  - apply in_app_or in H. destruct H as [H | [[= <- <-] | []]].
    + now apply Hobjs.
    + exists shape. split; [exact Hfind|]. exists entry.
      split; [exact Hentry | apply same_geometry_refl].
  - apply in_app_or in H. destruct H as [H | [[= <- <-] | []]].
    + now apply Hobjs.
    + rewrite (make_frame_objects _ _ Hentry), filter_none; [constructor|].
      intros s Hs. destruct (member_of k s) eqn:E; [|reflexivity].
      rewrite (Hseen s k Hs E) in Hc. discriminate Hc.
  - rewrite map_app. apply keys_distinct_snoc; [exact Hdistinct|].
    now apply contains_Forall.
  - intros s k' Hs Hm. rewrite contains_app, (Hseen s k' Hs Hm). reflexivity.
Qed.

(** The object of a shape goes to the frame its [frameId] names, and to no
    other. *)
Lemma aggregated_append (shapes done : list value) (frames : frames_t)
    (shape v : value) (k : Py.key) (obj : Obj.t) :
  aggregated shapes done frames ->
  contains k frames = true ->
  Py.get shape "frameId" VNone = Ok v -> v <> VNone -> Py.hash v = Ok k ->
  make_object shape = Ok obj ->
  aggregated shapes (done ++ [shape]) (append_object k obj frames).
Proof.
  intros (Hobjs & Hdistinct & Hseen) Hc Hget Hv Hk Hobj.
  assert (Hmember : forall k', member_of k' shape = Py.key_eqb k k')
    by (intro k'; now apply (member_of_hashed shape v)).
  repeat split.
  - destruct (append_object_In _ _ _ _ _ Hdistinct H)
      as [[_ Hin] | (_ & frame0 & Hin & ->)].
    + now apply Hobjs.
    + destruct (proj1 (Hobjs _ _ Hin)) as (s & Hfind & entry & He & Hg).
      exists s. split; [exact Hfind|]. exists entry. split; [exact He|].
      exact Hg.
  - rewrite filter_snoc, Hmember.
    destruct (append_object_In _ _ _ _ _ Hdistinct H)
      as [[Hne Hin] | (Heq & frame0 & Hin & ->)].
    + rewrite key_eqb_sym, Hne, app_nil_r. now apply Hobjs.
    + rewrite key_eqb_sym, Heq. simpl.
      apply Forall2_app; [now apply Hobjs|].
      constructor; [exact Hobj | constructor].
  - now rewrite append_object_keys.
  - intros s k' Hs Hm.
    rewrite (contains_keys k' _ frames) by apply append_object_keys.
    apply in_app_or in Hs. destruct Hs as [Hs | [<- | []]].
    + now apply (Hseen s).
    + rewrite Hmember in Hm. now apply (contains_eqb k k').
Qed.

Lemma aggregate_shape_aggregated (shapes done : list value) (shape : value)
    (frames frames' : frames_t) :
  aggregated shapes done frames ->
  aggregate_shape shapes shape frames = Ok frames' ->
  aggregated shapes (done ++ [shape]) frames'.
Proof.
  intros Hinv Hstep.
  destruct (Py.get shape "frameId" VNone) as [v|] eqn:Hget;
    [|unfold aggregate_shape in Hstep; now rewrite Hget in Hstep].
  destruct (value_is_none v) as [-> | Hv].
  - rewrite (aggregate_shape_skip _ _ _ Hget) in Hstep.
    injection Hstep as <-.
    assert (Hno : forall k, member_of k shape = false)
      by (intro k; unfold member_of; now rewrite Hget).
    destruct Hinv as (Hobjs & Hdistinct & Hseen). repeat split.
    + now apply Hobjs.
    + rewrite filter_snoc, Hno, app_nil_r. now apply Hobjs.
    + exact Hdistinct.
    + intros s k Hs Hm. apply in_app_or in Hs. destruct Hs as [Hs | [<- | []]].
      * now apply (Hseen s).
      * now rewrite Hno in Hm.
  - destruct (Py.hash v) as [k|] eqn:Hk;
      [|unfold aggregate_shape in Hstep; rewrite Hget in Hstep;
        destruct v; try discriminate Hk; discriminate Hstep].
    rewrite (aggregate_shape_member _ _ v k _ Hget Hv Hk) in Hstep.
    destruct (contains k frames) eqn:Hc.
    + cbn [bind] in Hstep.
      destruct (make_object shape) as [obj|] eqn:Hobj; [|discriminate Hstep].
      injection Hstep as <-.
      now apply (aggregated_append shapes done frames shape v).
    + destruct (find_frame shapes k) as [frame|] eqn:Hfind;
        [|discriminate Hstep].
      cbn [bind] in Hstep.
      destruct (make_frame frame) as [entry|] eqn:Hentry; [|discriminate Hstep].
      cbn [bind] in Hstep.
      destruct (make_object shape) as [obj|] eqn:Hobj; [|discriminate Hstep].
      injection Hstep as <-.
      apply (aggregated_append shapes done _ shape v); trivial.
      * now apply (aggregated_new_frame shapes done frames k frame).
      * rewrite contains_app. simpl. rewrite key_eqb_refl.
        now rewrite orb_true_r.
Qed.

Lemma aggregate_loop_aggregated (shapes : list value) :
  forall (rest done : list value) (frames frames' : frames_t),
    aggregated shapes done frames ->
    aggregate_loop shapes rest frames = Ok frames' ->
    aggregated shapes (done ++ rest) frames'.
Proof.
  induction rest as [|shape rest IH]; intros done frames frames' Hinv Hloop.
  - simpl in Hloop. injection Hloop as <-. now rewrite app_nil_r.
  - simpl in Hloop.
    destruct (aggregate_shape shapes shape frames) as [frames1|] eqn:Hstep;
      [|discriminate Hloop].
    cbn [bind] in Hloop.
    replace (done ++ shape :: rest) with ((done ++ [shape]) ++ rest)
      by (rewrite <- app_assoc; reflexivity).
    apply (IH _ frames1); [|exact Hloop].
    now apply (aggregate_shape_aggregated shapes done shape frames).
Qed.

Lemma aggregate_aggregated (shapes : list value) (frames : frames_t) :
  aggregate shapes = Ok frames -> aggregated shapes shapes frames.
Proof.
  intro H. apply (aggregate_loop_aggregated shapes shapes [] [] frames);
    [|exact H].
  repeat split; simpl; intros; contradiction.
Qed.

(** C8 (as amended).  When the aggregation succeeds, every frame [F] it
    produces under the key [frame_id] took its geometry from the shape the
    frame search finds for that key, and the objects of [F] are, in input
    order, the objects of exactly the shapes whose [frameId] equals the
    key.  So the shape that supplied the geometry is among them if and only
    if its own [frameId] equals the key, that is, if it names itself as its
    frame; otherwise it is not. *)
Theorem C8_frame_objects (shapes : list value) (frames : frames_t)
    (frame_id : Py.key) (F : Frame.t) :
  aggregate shapes = Ok frames -> In (frame_id, F) frames ->
  exists shape,
    supplied_by shapes frame_id shape F
    /\ objects_of (Frame.objects F) (filter (member_of frame_id) shapes)
    /\ (In shape (filter (member_of frame_id) shapes)
        <-> member_of frame_id shape = true).
Proof.
  intros Hagg Hin.
  destruct (aggregate_aggregated _ _ Hagg) as (Hobjs & _ & _).
  destruct (Hobjs _ _ Hin) as [[shape Hsupplied] Hmembers].
  exists shape. split; [exact Hsupplied|]. split; [exact Hmembers|].
  rewrite filter_In. split; [now intros [_ H]|].
  intro H. split; [|exact H].
  destruct Hsupplied as [Hfind _]. now apply find_frame_Ok in Hfind.
Qed.

Lemma C8_frame_objects_witness :
  exists (F : Frame.t) (shape : value),
    aggregate Self.shapes = Ok [(Py.KStr "f1", F)]
    /\ supplied_by Self.shapes (Py.KStr "f1") shape F
    /\ objects_of (Frame.objects F)
         (filter (member_of (Py.KStr "f1")) Self.shapes)
    /\ (In shape (filter (member_of (Py.KStr "f1")) Self.shapes)
        <-> member_of (Py.KStr "f1") shape = true).
Proof.
  eexists.
  destruct (C8_frame_objects Self.shapes _ (Py.KStr "f1") _ eq_refl
              (or_introl eq_refl)) as (shape & H).
  exists shape. split; [reflexivity | exact H].
Defined.

(** C8 as stated fails: the frame shape that names itself as its frame
    supplies the geometry of the frame and is also the one member of its
    objects. *)
Lemma C8_counterexample :
  exists (F : Frame.t) (obj : Obj.t),
    aggregate Self.shapes = Ok [(Py.KStr "f1", F)]
    /\ find_frame Self.shapes (Py.KStr "f1") = Ok Self.shape
    /\ make_object Self.shape = Ok obj
    /\ Frame.objects F = [obj].
Proof.
  do 2 eexists. repeat split.
Qed.

(** ** The scenes *)

Lemma for_each_app {A : Type} (body : A -> M unit) (l1 l2 : list A) (w : world) :
  for_each body (l1 ++ l2) w
  = match for_each body l1 w with
    | (Ok _, w') => for_each body l2 w'
    | (Raise e, w') => (Raise e, w')
    end.
Proof.
  revert w. induction l1 as [|a l1 IH]; intro w; simpl; [reflexivity|].
  unfold bindM. destruct (body a w) as [[[]|e] w']; [apply IH | reflexivity].
Qed.







(** ** The program *)

Lemma aggregate_loop_no_frameId (shapes rest : list value) (frames : frames_t) :
  forallb no_frameId rest = true ->
  aggregate_loop shapes rest frames = Ok frames.
Proof.
  induction rest as [|shape rest IH]; simpl; [reflexivity|].
  rewrite andb_true_iff. intros [Hs Hrest].
  unfold no_frameId in Hs.
  destruct (Py.get shape "frameId" VNone) as [[]|] eqn:Hget; try discriminate Hs.
  rewrite (aggregate_shape_skip _ _ _ Hget). exact (IH Hrest).
Qed.

(** C10.  When the [elements] array is not empty and every shape is a
    record without a [frameId] or with a null one, the run (with a
    configuration that gives the canvas dimensions) succeeds, and the
    output file holds the header line "from manim import *" followed by a
    blank line and nothing else.  When the array is empty the run succeeds
    too, but the output file is never opened. *)
Theorem C10_no_frames (config : Config.t) (size : Q * Q)
    (excalidraw_data : value) (shapes : list value) (output_file : string) :
  manim_frame_size config = Ok size ->
  Py.get excalidraw_data "elements" (VList []) = Ok (VList shapes) ->
  (shapes <> [] ->
   forallb no_frameId shapes = true ->
   parse_excalidraw_to_manim config excalidraw_data output_file initial
   = (Ok tt,
      {| stdout := [[Lit "Manim script generated and saved to ";
                     Str (VStr output_file)]];
         manim_file := Some [[Lit ("from manim import *" ++ nl ++ nl)%string]] |}))
  /\ (shapes = [] ->
      parse_excalidraw_to_manim config excalidraw_data output_file initial
      = (Ok tt,
         {| stdout := [[Lit "No elements found in the Excalidraw file."]];
            manim_file := None |})).
Proof.
  intros Hsize Hget.
  unfold parse_excalidraw_to_manim, bindM, lift.
  rewrite Hsize. destruct size as [w h]. rewrite Hget.
  split.
  - intros Hne Hall. destruct shapes as [|shape shapes]; [congruence|].
    cbn [Py.truthy negb Py.iterate]. unfold aggregate.
    rewrite (aggregate_loop_no_frameId _ _ _ Hall). reflexivity.
  - intros ->. reflexivity.
Qed.

Lemma C10_no_frames_witness :
  parse_excalidraw_to_manim Config.empty Loose.document "out.py" initial
  = (Ok tt,
     {| stdout := [[Lit "Manim script generated and saved to ";
                    Str (VStr "out.py")]];
        manim_file := Some [[Lit ("from manim import *" ++ nl ++ nl)%string]] |}).
Proof.
  apply (C10_no_frames Config.empty (14, 8) Loose.document Loose.shapes);
    (reflexivity || discriminate).
Defined.

(** ** The configuration *)




(** * Further properties of the program *)

(** ** The geometry of the transform *)

Section Geometry.

Variables (frame : Frame.t) (obj : Obj.t).
Variables (ox oy ow oh fx fy fw fh : Q).

Hypothesis Hox : Py.as_num (Obj.x obj) = Ok ox.
Hypothesis Hoy : Py.as_num (Obj.y obj) = Ok oy.
Hypothesis How : Py.as_num (Obj.width obj) = Ok ow.
Hypothesis Hoh : Py.as_num (Obj.height obj) = Ok oh.
Hypothesis Hfx : Py.as_num (Frame.x frame) = Ok fx.
Hypothesis Hfy : Py.as_num (Frame.y frame) = Ok fy.
Hypothesis Hfw : Py.as_num (Frame.width frame) = Ok fw.
Hypothesis Hfh : Py.as_num (Frame.height frame) = Ok fh.






End Geometry.









(** ** What the aggregation keeps *)

Lemma contains_keys_existsb (k : Py.key) (frames : frames_t) :
  contains k frames = existsb (fun k' => Py.key_eqb k' k) (map fst frames).
Proof.
  unfold contains. induction frames as [|[k' frame] frames IH]; simpl;
    [reflexivity | now rewrite IH].
Qed.

Lemma frame_ids_member (shape v : value) (k : Py.key) :
  Py.get shape "frameId" VNone = Ok v -> v <> VNone -> Py.hash v = Ok k ->
  frame_ids [shape] = [k].
Proof.
  intros Hget Hv Hk. simpl. rewrite Hget.
  destruct v; try congruence; now rewrite Hk.
Qed.

(** The keys after one shape. *)
Lemma aggregate_shape_keys (shapes : list value) (shape : value)
    (frames frames' : frames_t) :
  aggregate_shape shapes shape frames = Ok frames' ->
  map fst frames' = fold_left first_seen (frame_ids [shape]) (map fst frames).
Proof.
  intro Hstep.
  destruct (Py.get shape "frameId" VNone) as [v|] eqn:Hget;
    [|unfold aggregate_shape in Hstep; now rewrite Hget in Hstep].
  destruct (value_is_none v) as [-> | Hv].
  - rewrite (aggregate_shape_skip _ _ _ Hget) in Hstep.
    injection Hstep as <-. simpl. now rewrite Hget.
  - destruct (Py.hash v) as [k|] eqn:Hk;
      [|unfold aggregate_shape in Hstep; rewrite Hget in Hstep;
        destruct v; try discriminate Hk; discriminate Hstep].
    rewrite (aggregate_shape_member _ _ v k _ Hget Hv Hk) in Hstep.
    rewrite (frame_ids_member _ _ _ Hget Hv Hk). simpl. unfold first_seen.
    rewrite <- contains_keys_existsb.
    destruct (contains k frames) eqn:Hc; cbn [bind] in Hstep.
    + destruct (make_object shape) as [obj|]; [|discriminate Hstep].
      injection Hstep as <-. apply append_object_keys.
    + destruct (find_frame shapes k) as [frame|]; [|discriminate Hstep].
      cbn [bind] in Hstep.
      destruct (make_frame frame) as [entry|]; [|discriminate Hstep].
      cbn [bind] in Hstep.
      destruct (make_object shape) as [obj|]; [|discriminate Hstep].
      injection Hstep as <-. rewrite append_object_keys, map_app. reflexivity.
Qed.

Lemma frame_ids_cons (shape : value) (rest : list value) :
  frame_ids (shape :: rest) = frame_ids [shape] ++ frame_ids rest.
Proof.
  simpl. destruct (Py.get shape "frameId" VNone) as [v|]; [|reflexivity].
  destruct v; try reflexivity; destruct (Py.hash _); reflexivity.
Qed.

Lemma aggregate_loop_keys (shapes : list value) :
  forall (rest : list value) (frames frames' : frames_t),
    aggregate_loop shapes rest frames = Ok frames' ->
    map fst frames' = fold_left first_seen (frame_ids rest) (map fst frames).
Proof.
  induction rest as [|shape rest IH]; intros frames frames' Hloop.
  - simpl in Hloop. now injection Hloop as <-.
  - simpl in Hloop.
    destruct (aggregate_shape shapes shape frames) as [frames1|] eqn:Hstep;
      [|discriminate Hloop].
    cbn [bind] in Hloop.
    rewrite frame_ids_cons, fold_left_app,
      <- (aggregate_shape_keys _ _ _ _ Hstep).
    now apply IH.
Qed.

(** X6.  The frames come in the order in which their ids are first met as
    a [frameId], one frame for every id: a [frameId] equal to one met
    before (as Python compares keys) opens no second frame. *)
Theorem frames_in_first_encounter_order (shapes : list value)
    (frames : frames_t) :
  aggregate shapes = Ok frames ->
  map fst frames = first_occurrences (frame_ids shapes)
  /\ keys_distinct (map fst frames).
Proof.
  intro Hagg. split.
  - apply (aggregate_loop_keys shapes shapes [] frames Hagg).
  - now destruct (aggregate_aggregated _ _ Hagg) as (_ & Hdistinct & _).
Qed.

Lemma frames_in_first_encounter_order_witness :
  exists frames : frames_t,
    aggregate TwoFrames.shapes = Ok frames
    /\ map fst frames = [Py.KStr "g"; Py.KStr "f"]%string.
Proof.
  eexists. split; [reflexivity|].
  apply (frames_in_first_encounter_order TwoFrames.shapes _ eq_refl).
Defined.

Lemma total_objects_app (frames frames' : frames_t) :
  total_objects (frames ++ frames')
  = (total_objects frames + total_objects frames')%nat.
Proof. unfold total_objects. now rewrite flat_map_app, length_app. Qed.

Lemma append_object_total (k : Py.key) (obj : Obj.t) (frames : frames_t) :
  contains k frames = true ->
  total_objects (append_object k obj frames) = S (total_objects frames).
Proof.
  unfold total_objects, contains.
  induction frames as [|[k' frame] frames IH]; simpl; [discriminate|].
  destruct (Py.key_eqb k' k); simpl.
  - intros _. rewrite !length_app. simpl. lia.
  - intro Hc. rewrite !length_app, (IH Hc). lia.
Qed.

Lemma aggregate_shape_total (shapes : list value) (shape : value)
    (frames frames' : frames_t) :
  aggregate_shape shapes shape frames = Ok frames' ->
  total_objects frames'
  = (total_objects frames + if has_frameId shape then 1 else 0)%nat.
Proof.
  intro Hstep. unfold has_frameId.
  destruct (Py.get shape "frameId" VNone) as [v|] eqn:Hget;
    [|unfold aggregate_shape in Hstep; now rewrite Hget in Hstep].
  destruct (value_is_none v) as [-> | Hv].
  - rewrite (aggregate_shape_skip _ _ _ Hget) in Hstep.
    injection Hstep as <-. lia.
  - destruct (Py.hash v) as [k|] eqn:Hk;
      [|unfold aggregate_shape in Hstep; rewrite Hget in Hstep;
        destruct v; try discriminate Hk; discriminate Hstep].
    rewrite (aggregate_shape_member _ _ v k _ Hget Hv Hk) in Hstep.
    replace (match v with VNone => false | _ => true end) with true
      by (destruct v; congruence).
    destruct (contains k frames) eqn:Hc; cbn [bind] in Hstep.
    + destruct (make_object shape) as [obj|]; [|discriminate Hstep].
      injection Hstep as <-. rewrite (append_object_total _ _ _ Hc). lia.
    + destruct (find_frame shapes k) as [frame|]; [|discriminate Hstep].
      cbn [bind] in Hstep.
      destruct (make_frame frame) as [entry|] eqn:Hentry; [|discriminate Hstep].
      cbn [bind] in Hstep.
      destruct (make_object shape) as [obj|]; [|discriminate Hstep].
      injection Hstep as <-.
      rewrite append_object_total, total_objects_app.
      * unfold total_objects at 2. simpl.
        rewrite (make_frame_objects _ _ Hentry). simpl. lia.
      * rewrite contains_app. simpl. rewrite key_eqb_refl.
        now rewrite orb_true_r.
Qed.

Lemma aggregate_loop_total (shapes : list value) :
  forall (rest : list value) (frames frames' : frames_t),
    aggregate_loop shapes rest frames = Ok frames' ->
    total_objects frames'
    = (total_objects frames + List.length (filter has_frameId rest))%nat.
Proof.
  induction rest as [|shape rest IH]; intros frames frames' Hloop.
  - simpl in Hloop. injection Hloop as <-. simpl. lia.
  - simpl in Hloop.
    destruct (aggregate_shape shapes shape frames) as [frames1|] eqn:Hstep;
      [|discriminate Hloop].
    cbn [bind] in Hloop.
    rewrite (IH _ _ Hloop), (aggregate_shape_total _ _ _ _ Hstep). simpl.
    destruct (has_frameId shape); simpl; lia.
Qed.

(** X7.  The aggregation loses no shape and doubles none: the frames
    together hold as many objects as there are shapes with a [frameId]. *)
Theorem aggregation_keeps_every_member (shapes : list value)
    (frames : frames_t) :
  aggregate shapes = Ok frames ->
  total_objects frames = List.length (filter has_frameId shapes).
Proof.
  intro Hagg. apply (aggregate_loop_total shapes shapes [] frames Hagg).
Qed.

Lemma aggregation_keeps_every_member_witness :
  exists frames : frames_t,
    aggregate TwoFrames.shapes = Ok frames /\ total_objects frames = 3%nat.
Proof.
  eexists. split; [reflexivity|].
  apply (aggregation_keeps_every_member TwoFrames.shapes _ eq_refl).
Defined.

Lemma aggregate_loop_resolved (shapes : list value) :
  forallb hashable_frameId shapes = true ->
  forall (rest : list value) (frames : frames_t),
    incl rest shapes ->
    existsb (dangling shapes) rest = false ->
    exists frames', aggregate_loop shapes rest frames = Ok frames'.
Proof.
  intro Hall. induction rest as [|shape rest IH]; intros frames Hincl Hno.
  - now exists frames.
  - assert (Hs : hashable_frameId shape = true).
    { rewrite forallb_forall in Hall. apply Hall, Hincl. now left. }
    assert (Hrest : incl rest shapes) by (intros s Hin; apply Hincl; now right).
    simpl in Hno. apply orb_false_iff in Hno. destruct Hno as [Hshape Hno].
    destruct (hashable_frameId_inv _ Hs) as (d & v & k & -> & Hget & Hk).
    simpl. unfold dangling in Hshape. rewrite Hget in Hshape.
    destruct (value_is_none v) as [-> | Hv].
    + rewrite (aggregate_shape_skip _ _ _ Hget). now apply IH.
    + rewrite (aggregate_shape_member _ _ v k _ Hget Hv Hk).
      assert (Hr : resolves shapes k = true).
      { destruct v; try congruence; rewrite Hk in Hshape;
          now apply negb_false_iff in Hshape. }
      destruct (make_object_record d) as [obj Hobj]. rewrite Hobj.
      destruct (contains k frames); cbn [bind]; [now apply IH|].
      pose proof (find_frame_resolves shapes k Hall) as Hfind.
      rewrite Hr in Hfind. destruct Hfind as [fd ->]. cbn [bind].
      destruct (make_frame_record fd) as [entry ->]. cbn [bind].
      now apply IH.
Qed.

(** X8.  When every shape is a record whose [frameId] is hashable, the
    aggregation succeeds exactly when no [frameId] dangles, that is, when
    every [frameId] that is set is the [id] of some shape. *)
Theorem aggregation_succeeds_iff_resolved (shapes : list value) :
  forallb hashable_frameId shapes = true ->
  (exists frames, aggregate shapes = Ok frames)
  <-> existsb (dangling shapes) shapes = false.
Proof.
  intro Hall. split.
  - intros [frames Hagg].
    destruct (existsb (dangling shapes) shapes) eqn:Hex; [|reflexivity].
    unfold aggregate in Hagg.
    rewrite (aggregate_loop_dangling shapes Hall shapes [] (incl_refl _)) in Hagg;
      [discriminate Hagg | constructor | exact Hex].
  - intro Hno. now apply aggregate_loop_resolved; [|apply incl_refl|].
Qed.

Lemma aggregation_succeeds_iff_resolved_witness :
  (exists frames, aggregate TwoFrames.shapes = Ok frames)
  /\ ~ (exists frames, aggregate Ghost.shapes = Ok frames).
Proof.
  split.
  - apply (aggregation_succeeds_iff_resolved TwoFrames.shapes); reflexivity.
  - intro H.
    apply (aggregation_succeeds_iff_resolved Ghost.shapes eq_refl) in H.
    discriminate H.
Defined.

(** X9.  The frame search returns the first shape, in input order, whose
    [id] equals the key: when several shapes share an [id], the first of
    them gives the frame its geometry. *)
Theorem find_frame_first_match (shapes : list value) (frame_id : Py.key)
    (shape : value) :
  find_frame shapes frame_id = Ok shape ->
  exists before after,
    shapes = before ++ shape :: after
    /\ first_with_id frame_id before shape.
Proof.
  revert shape. induction shapes as [|s shapes IH]; intros shape; simpl;
    [discriminate|].
  destruct (Py.get s "id" VNone) as [id|] eqn:Hid; simpl; [|discriminate].
  destruct (Py.eq id frame_id) eqn:Heq.
  - intros [= <-]. exists [], shapes. split; [reflexivity|].
    split; [intros ? []|]. now exists id.
  - intro Hfind. destruct (IH _ Hfind) as (before & after & -> & Hbefore & Hshape).
    exists (s :: before), after. split; [reflexivity|].
    split; [|exact Hshape].
    intros s' [<- | Hin]; [now exists id | now apply Hbefore].
Qed.

Lemma find_frame_first_match_witness :
  exists before after,
    TwoFrames.shapes = before ++ nth 4 TwoFrames.shapes VNone :: after
    /\ first_with_id (Py.KStr "g") before (nth 4 TwoFrames.shapes VNone).
Proof.
  apply (find_frame_first_match TwoFrames.shapes (Py.KStr "g")). reflexivity.
Defined.

Lemma aggregate_loop_app (shapes a b : list value) (frames : frames_t) :
  aggregate_loop shapes (a ++ b) frames
  = (frames' <- aggregate_loop shapes a frames ;;
     aggregate_loop shapes b frames').
Proof.
  revert frames. induction a as [|shape a IH]; intro frames; simpl;
    [reflexivity|].
  destruct (aggregate_shape shapes shape frames); simpl; [apply IH | reflexivity].
Qed.

(** X10.  Once the loop is past the shapes before it, an element that is
    not a record stops the aggregation with [AttributeError], and a shape
    whose [frameId] is a list or a record stops it with [TypeError]. *)
Theorem aggregation_stops_at_malformed_shape (before after : list value)
    (shape : value) (frames : frames_t) :
  let shapes := before ++ shape :: after in
  aggregate_loop shapes before [] = Ok frames ->
  ((forall d, shape <> VDict d) -> aggregate shapes = Raise AttributeError)
  /\ (forall v, Py.get shape "frameId" VNone = Ok v ->
                (forall k, Py.hash v <> Ok k) ->
                aggregate shapes = Raise TypeError).
Proof.
  intros shapes Hbefore. unfold aggregate. fold shapes.
  unfold shapes at 2 4. rewrite aggregate_loop_app. fold shapes.
  rewrite Hbefore. cbn [bind aggregate_loop]. unfold aggregate_shape. split.
  - intro Hd. destruct shape; try reflexivity. now destruct (Hd d).
  - intros v Hget Hhash. rewrite Hget. cbn [bind].
    destruct v; simpl; try reflexivity;
      exfalso; eapply Hhash; reflexivity.
Qed.

Lemma aggregation_stops_at_malformed_shape_witness :
  aggregate (TwoFrames.shapes ++ [Broken.not_a_record]) = Raise AttributeError
  /\ aggregate (TwoFrames.shapes ++ [Broken.listed_frameId]) = Raise TypeError.
Proof.
  split.
  - eapply (aggregation_stops_at_malformed_shape TwoFrames.shapes []
              Broken.not_a_record); [reflexivity | discriminate].
  - eapply (aggregation_stops_at_malformed_shape TwoFrames.shapes []
              Broken.listed_frameId); [reflexivity | reflexivity | discriminate].
Defined.

(** ** What the emitter writes *)

Lemma scene_name_not_str (v : value) :
  (forall s, v <> VStr s) -> scene_name v = Raise AttributeError.
Proof.
  intro H. destruct v; try reflexivity. now destruct (H s).
Qed.

Lemma emit_frame_unnamed (Cw Ch scale : Q) (item : Py.key * Frame.t)
    (w : world) :
  frame_scale Cw Ch (Frame.width (snd item)) (Frame.height (snd item))
  = Ok scale ->
  (forall s, Frame.name (snd item) <> VStr s) ->
  emit_frame Cw Ch item w = (Raise AttributeError, w).
Proof.
  intros Hscale Hname. unfold emit_frame, bindM, lift.
  now rewrite Hscale, (scene_name_not_str _ Hname).
Qed.

(** X11.  A frame whose [name] is not a string (Excalidraw writes [null]
    for a frame that was never named) fails with [AttributeError] once its
    scale is computed, before anything is printed or written for it; the
    run ends there, with the output of the frames before it in the file. *)
Theorem unnamed_frame_fails (Cw Ch scale : Q) (before after : frames_t)
    (item : Py.key * Frame.t) (w0 w1 : world) :
  frame_scale Cw Ch (Frame.width (snd item)) (Frame.height (snd item))
  = Ok scale ->
  (forall s, Frame.name (snd item) <> VStr s) ->
  write_scenes Cw Ch before w0 = (Ok tt, w1) ->
  (forall w, emit_frame Cw Ch item w = (Raise AttributeError, w))
  /\ write_scenes Cw Ch (before ++ item :: after) w0
     = (Raise AttributeError, w1).
Proof.
  intros Hscale Hname Hbefore.
  split; [intro w; now apply (emit_frame_unnamed Cw Ch scale)|].
  unfold write_scenes, bindM in *. simpl in *.
  rewrite for_each_app.
  destruct (for_each (emit_frame Cw Ch) before _) as [[[]|e] w'];
    [|discriminate Hbefore].
  injection Hbefore as ->. simpl. unfold bindM.
  now rewrite (emit_frame_unnamed Cw Ch scale).
Qed.

Lemma unnamed_frame_fails_witness :
  exists w1 : world,
    write_scenes 14 8 [ZeroWidth.good] initial = (Ok tt, w1)
    /\ write_scenes 14 8 [ZeroWidth.good; Unnamed.item] initial
       = (Raise AttributeError, w1).
Proof.
  eexists. split; [reflexivity|].
  eapply (unnamed_frame_fails 14 8 _ [ZeroWidth.good] [] Unnamed.item);
    [reflexivity | discriminate | reflexivity].
Defined.

(** An object is drawn completely or not at all. *)
Lemma emit_object_raise (frame : Frame.t) (scale : Q) (obj : Obj.t)
    (w w' : world) (e : exn) :
  emit_object frame scale obj w = (Raise e, w') -> w' = w.
Proof.
  unfold emit_object, bindM, lift.
  destruct (transform frame scale obj) as [[[[obj_x obj_y] obj_width] obj_height]|];
    [|now intros [= _ <-]].
  unfold draw_object, bindM, lift, write, ret.
  destruct (Py.eq (Obj.type obj) (Py.KStr "rectangle")); [discriminate|].
  destruct (Py.eq (Obj.type obj) (Py.KStr "ellipse")); [discriminate|].
  destruct (Py.eq (Obj.type obj) (Py.KStr "text")); [|discriminate].
  destruct (Py.str_split (Obj.text obj) newline); [|now intros [= _ <-]].
  destruct (Py.mul_float (Obj.fontSize obj) (3 # 10));
    [discriminate | now intros [= _ <-]].
Qed.

(** X12.  The loop over the objects of a frame stops at the first object
    that fails (coordinates that are not numbers, a text that is not a
    string): the statements of the objects before it stay written, the
    failing object leaves no trace, and the objects after it are not
    drawn. *)
Theorem drawing_stops_at_first_failure (frame : Frame.t) (scale : Q)
    (before after : list Obj.t) (obj : Obj.t) (w w1 w2 : world) (e : exn) :
  for_each (emit_object frame scale) before w = (Ok tt, w1) ->
  emit_object frame scale obj w1 = (Raise e, w2) ->
  w2 = w1
  /\ for_each (emit_object frame scale) (before ++ obj :: after) w
     = (Raise e, w1).
Proof.
  intros Hbefore Hobj.
  pose proof (emit_object_raise _ _ _ _ _ _ Hobj) as ->.
  split; [reflexivity|].
  rewrite for_each_app, Hbefore. simpl. unfold bindM. now rewrite Hobj.
Qed.

Lemma drawing_stops_at_first_failure_witness :
  exists w1 : world,
    for_each (emit_object Corner.frame (4 # 5)) [Corner.obj] initial
    = (Ok tt, w1)
    /\ for_each (emit_object Corner.frame (4 # 5))
         [Corner.obj; Placeless.obj; Mixed.ellipse] initial
       = (Raise TypeError, w1).
Proof.
  eexists. split; [reflexivity|].
  eapply (drawing_stops_at_first_failure Corner.frame (4 # 5) [Corner.obj]
            [Mixed.ellipse] Placeless.obj); reflexivity.
Defined.

Lemma grown_nil (w : world) : grown w [] [] = w.
Proof.
  destruct w as [out [file|]]; unfold grown; simpl; now rewrite ?app_nil_r.
Qed.

Lemma grown_grown (w : world) (p1 t1 p2 t2 : list text_t) :
  grown (grown w p1 t1) p2 t2 = grown w (p1 ++ p2) (t1 ++ t2).
Proof.
  destruct w as [out [file|]]; unfold grown; simpl; now rewrite <- ?app_assoc.
Qed.

Lemma print_grown (t : text_t) (w : world) : print t w = (Ok tt, grown w [t] []).
Proof.
  destruct w as [out [file|]]; unfold print, grown; simpl;
    now rewrite ?app_nil_r.
Qed.

Lemma write_grown (t : text_t) (w : world) : write t w = (Ok tt, grown w [] [t]).
Proof.
  destruct w as [out [file|]]; unfold write, grown; simpl;
    now rewrite ?app_nil_r.
Qed.






Section Appends.

Lemma appends_ret {A : Type} (a : A) : appends (ret a).
Proof.
  intros w r w' [= <- <-]. exists [], []. now rewrite grown_nil.
Qed.

Lemma appends_lift {A : Type} (r : result A) : appends (lift r).
Proof.
  intros w r' w' [= <- <-]. exists [], []. now rewrite grown_nil.
Qed.

Lemma appends_print (t : text_t) : appends (print t).
Proof.
  intros w r w'. rewrite print_grown. intros [= <- <-]. now do 2 eexists.
Qed.

Lemma appends_write (t : text_t) : appends (write t).
Proof.
  intros w r w'. rewrite write_grown. intros [= <- <-]. now do 2 eexists.
Qed.

Lemma appends_bind {A B : Type} (m : M A) (k : A -> M B) :
  appends m -> (forall a, appends (k a)) -> appends (bindM m k).
Proof.
  intros Hm Hk w r w'. unfold bindM.
  destruct (m w) as [[a|e] w1] eqn:E.
  - intro Hka. destruct (Hm _ _ _ E) as (p1 & t1 & ->).
    destruct (Hk a _ _ _ Hka) as (p2 & t2 & ->).
    exists (p1 ++ p2), (t1 ++ t2). apply grown_grown.
  - intros [= <- <-]. exact (Hm _ _ _ E).
Qed.

Lemma appends_for_each {A : Type} (body : A -> M unit) (l : list A) :
  (forall a, appends (body a)) -> appends (for_each body l).
Proof.
  intro Hbody. induction l as [|a l IH]; simpl.
  - apply appends_ret.
  - apply appends_bind; [apply Hbody | intros _; exact IH].
Qed.

Lemma appends_draw_object (obj : Obj.t) (canvas : Q * Q * Q * Q) :
  appends (draw_object obj canvas).
Proof.
  destruct canvas as [[[obj_x obj_y] obj_width] obj_height].
  unfold draw_object.
  destruct (Py.eq (Obj.type obj) (Py.KStr "rectangle"));
    [apply appends_write|].
  destruct (Py.eq (Obj.type obj) (Py.KStr "ellipse"));
    [apply appends_write|].
  destruct (Py.eq (Obj.type obj) (Py.KStr "text")); [|apply appends_ret].
  apply appends_bind; [apply appends_lift | intro text_lines].
  apply appends_bind; [apply appends_lift | intro font_size].
  apply appends_write.
Qed.

Lemma appends_emit_object (frame : Frame.t) (scale : Q) (obj : Obj.t) :
  appends (emit_object frame scale obj).
Proof.
  unfold emit_object.
  apply appends_bind; [apply appends_lift | apply appends_draw_object].
Qed.

Lemma appends_emit_frame (Cw Ch : Q) (item : Py.key * Frame.t) :
  appends (emit_frame Cw Ch item).
Proof.
  unfold emit_frame.
  repeat (apply appends_bind;
          [first [apply appends_lift | apply appends_print
                 | apply appends_write
                 | apply appends_for_each; intro; apply appends_emit_object]
          | intro]).
  apply appends_write.
Qed.

End Appends.

Lemma write_scenes_grows (Cw Ch : Q) (frames : frames_t)
    (w w' : world) (r : result unit) :
  write_scenes Cw Ch frames w = (r, w') ->
  exists printed rest,
    stdout w' = stdout w ++ printed
    /\ manim_file w' = Some (header :: rest).
Proof.
  unfold write_scenes, bindM, open_w, write. simpl. intro Hloop.
  destruct (appends_for_each (emit_frame Cw Ch) frames
              (appends_emit_frame Cw Ch) _ _ _ Hloop)
    as (printed & written & ->).
  now exists printed, written.
Qed.

(** X14.  Whatever the output file held, and however the writing of the
    scenes ends, the file then starts with the header line: opening it
    discards its old content, and nothing written is taken back; what was
    printed before stays printed. *)
Theorem output_file_starts_with_header (Cw Ch : Q) (frames : frames_t)
    (w w' : world) (r : result unit) :
  write_scenes Cw Ch frames w = (r, w') ->
  exists printed rest,
    stdout w' = stdout w ++ printed
    /\ manim_file w' = Some (header :: rest).
Proof. apply write_scenes_grows. Qed.

Lemma output_file_starts_with_header_witness :
  exists (w' : world) (printed rest : list text_t),
    write_scenes 14 8 [ZeroWidth.good; ZeroWidth.flat]
      {| stdout := [[Lit "earlier"]]; manim_file := Some [[Lit "old"]] |}
    = (Raise ZeroDivisionError, w')
    /\ stdout w' = [[Lit "earlier"]] ++ printed
    /\ manim_file w' = Some (header :: rest).
Proof.
  eexists.
  destruct (output_file_starts_with_header 14 8
              [ZeroWidth.good; ZeroWidth.flat]
              {| stdout := [[Lit "earlier"]]; manim_file := Some [[Lit "old"]] |}
              _ _ eq_refl) as (printed & rest & H).
  exists printed, rest. split; [reflexivity | exact H].
Defined.

(** ** Lines of text and scene names *)

Lemma split_not_nil (sep : ascii) (s : string) : Py.split sep s <> [].
Proof.
  destruct s as [|c s]; simpl; [discriminate|].
  destruct (Ascii.eqb c sep); [discriminate|].
  destruct (Py.split sep s); discriminate.
Qed.

Lemma split_concat (sep : ascii) (s : string) :
  String.concat (String sep EmptyString) (Py.split sep s) = s.
Proof.
  induction s as [|c s IH]; [reflexivity|].
  simpl. destruct (Ascii.eqb c sep) eqn:E.
  - apply Ascii.eqb_eq in E. subst c.
    pose proof (split_not_nil sep s) as Hne.
    destruct (Py.split sep s) as [|w ws]; [congruence|].
    cbn [String.concat] in *. now rewrite IH.
  - destruct (Py.split sep s) as [|w ws] eqn:Es;
      [now destruct (split_not_nil sep s)|].
    destruct ws as [|w' ws]; simpl in *; now rewrite IH.
Qed.

Lemma split_length (sep : ascii) (s : string) :
  List.length (Py.split sep s) = S (occurrences sep s).
Proof.
  induction s as [|c s IH]; [reflexivity|].
  simpl. destruct (Ascii.eqb c sep); simpl; [now rewrite IH|].
  destruct (Py.split sep s) as [|w ws]; simpl in *; [discriminate IH | exact IH].
Qed.

Lemma split_no_separator (sep : ascii) (s : string) :
  Forall (fun line => occurrences sep line = O) (Py.split sep s).
Proof.
  induction s as [|c s IH]; simpl; [now repeat constructor|].
  destruct (Ascii.eqb c sep) eqn:E; [now constructor|].
  destruct (Py.split sep s) as [|w ws].
  - repeat constructor. simpl. now rewrite E.
  - inversion IH; subst. constructor; [|assumption]. simpl. now rewrite E.
Qed.

Lemma reprs_app (a b : text_t) : reprs (a ++ b) = reprs a ++ reprs b.
Proof.
  induction a as [|[s|v|v] a IH]; simpl; trivial. now rewrite IH.
Qed.

Lemma reprs_texts (font_size : Q) (text_lines : list string) :
  reprs (join [Lit ", "]
           (map (fun line => [Lit "Text("; Repr (VStr line);
                              Lit ", should_center=False, font_size=";
                              Str (VNum font_size); Lit ")"]) text_lines))
  = map VStr text_lines.
Proof.
  induction text_lines as [|line [|line' lines] IH]; try reflexivity.
  cbn [map join] in *. rewrite !reprs_app, IH. reflexivity.
Qed.

(** X15.  The lines of a text: joined with newlines they give the text
    back, there is one more of them than the text has newlines, none
    contains a newline, and the statement of the text shows exactly these
    lines, in order, one [Text] each. *)
Theorem text_is_drawn_line_by_line (s : string) (font_size obj_x obj_y : Q) :
  let text_lines := Py.split newline s in
  Py.str_split (VStr s) newline = Ok text_lines
  /\ String.concat nl text_lines = s
  /\ List.length text_lines = S (occurrences newline s)
  /\ Forall (fun line => occurrences newline line = O) text_lines
  /\ reprs (add_text text_lines font_size obj_x obj_y) = map VStr text_lines.
Proof.
  intro text_lines. split; [reflexivity|].
  split; [apply split_concat|]. split; [apply split_length|].
  split; [apply split_no_separator|].
  unfold add_text. rewrite !reprs_app, reprs_texts. simpl.
  now rewrite app_nil_r.
Qed.









(** ** The run as a whole *)

(** X17.  Every run ends in one of three ways.  It finds no elements,
    prints so and opens no file; or it fails before the output file is
    opened, having printed nothing; or it opens the file and writes the
    header first, and then, if it succeeds, the last thing it prints is
    that the script was saved. *)
Theorem run_outcomes (config : Config.t) (excalidraw_data : value)
    (output_file : string) (r : result unit) (w' : world) :
  parse_excalidraw_to_manim config excalidraw_data output_file initial
  = (r, w') ->
  (r = Ok tt /\ w' = no_elements)
  \/ ((exists e, r = Raise e) /\ w' = initial)
  \/ (exists printed rest,
        manim_file w' = Some (header :: rest)
        /\ (r = Ok tt -> stdout w' = printed ++ [saved_to output_file])).
Proof.
  unfold parse_excalidraw_to_manim, bindM, lift.
  destruct (manim_frame_size config) as [[Cw Ch]|e];
    [|intros [= <- <-]; right; left; split; [now exists e | reflexivity]].
  destruct (Py.get excalidraw_data "elements" (VList [])) as [shapes|e];
    [|intros [= <- <-]; right; left; split; [now exists e | reflexivity]].
  destruct (Py.truthy shapes); simpl;
    [|intros [= <- <-]; left; split; reflexivity].
  destruct (Py.iterate shapes) as [items|e];
    [|intros [= <- <-]; right; left; split; [now exists e | reflexivity]].
  destruct (aggregate items) as [frames|e];
    [|intros [= <- <-]; right; left; split; [now exists e | reflexivity]].
  destruct (write_scenes Cw Ch frames initial) as [[[]|e] w1] eqn:Hscenes;
    destruct (write_scenes_grows _ _ _ _ _ _ Hscenes)
      as (printed & rest & Hout & Hfile);
    intros [= <- <-]; right; right.
  - exists (stdout w1), rest. split; [exact Hfile | reflexivity].
  - exists printed, rest. split; [exact Hfile | discriminate].
Qed.

Lemma run_outcomes_witness :
  exists printed rest w',
    parse_excalidraw_to_manim Config.empty Loose.document "out.py" initial
    = (Ok tt, w')
    /\ manim_file w' = Some (header :: rest)
    /\ stdout w' = printed ++ [saved_to "out.py"].
Proof.
  pose proof (run_outcomes Config.empty Loose.document "out.py" (Ok tt)
                {| stdout := [saved_to "out.py"];
                   manim_file := Some [header] |} eq_refl) as H.
  destruct H as [[_ H] | [[[e H] _] | (printed & rest & Hfile & Hout)]];
    [discriminate H | discriminate H |].
  exists printed, rest. eexists.
  split; [reflexivity|]. split; [exact Hfile | now apply Hout].
Defined.

(** X18.  Documents without a list of shapes, for a configuration that
    gives the canvas dimensions.  A document that is not a record fails
    with [AttributeError].  An [elements] value that is missing or falsy
    (null, false, 0, an empty string, list or record) ends the run as an
    empty list does.  Any other value that is not a list fails before the
    output file is opened: a number or [true] with [TypeError], a string
    or a record with [AttributeError]. *)
Theorem documents_without_shapes (config : Config.t) (size : Q * Q)
    (excalidraw_data : value) (output_file : string) :
  manim_frame_size config = Ok size ->
  let run :=
    parse_excalidraw_to_manim config excalidraw_data output_file initial in
  ((forall d, excalidraw_data <> VDict d) -> run = (Raise AttributeError, initial))
  /\ (forall d, excalidraw_data = VDict d ->
                Config.assoc "elements" d = None -> run = (Ok tt, no_elements))
  /\ (forall v, Py.get excalidraw_data "elements" (VList []) = Ok v ->
        (Py.truthy v = false -> run = (Ok tt, no_elements))
        /\ (Py.truthy v = true -> (forall l, v <> VList l) ->
            run = (Raise match v with
                         | VStr _ | VDict _ => AttributeError
                         | _ => TypeError
                         end, initial))).
Proof.
  intros Hsize run. subst run.
  unfold parse_excalidraw_to_manim, bindM, lift.
  rewrite Hsize. destruct size as [Cw Ch]. repeat split.
  - intro Hd. destruct excalidraw_data; try reflexivity. now destruct (Hd d).
  - intros d -> Hnone. simpl.
    replace (Py.dict_get d "elements" (VList [])) with (VList []);
      [reflexivity|].
    clear Hsize. induction d as [|[k v] d IH]; [reflexivity|].
    simpl in *. destruct (String.eqb k "elements"); [discriminate | now apply IH].
  - intro Hfalse. rewrite H, Hfalse. reflexivity.
  - intros Htrue Hlist. rewrite H, Htrue. cbn [negb].
    destruct v as [| b | q | s | l | d]; try discriminate Htrue;
      try reflexivity.
    + destruct s; [discriminate Htrue | reflexivity].
    + now destruct (Hlist l).
    + destruct d as [|[k v] d]; [discriminate Htrue | reflexivity].
Qed.

Lemma documents_without_shapes_witness :
  parse_excalidraw_to_manim Config.empty (VList []) "out.py" initial
  = (Raise AttributeError, initial)
  /\ parse_excalidraw_to_manim Config.empty (VDict []) "out.py" initial
     = (Ok tt, no_elements)
  /\ parse_excalidraw_to_manim Config.empty
       (VDict [("elements"%string, VNone)]) "out.py" initial
     = (Ok tt, no_elements)
  /\ parse_excalidraw_to_manim Config.empty
       (VDict [("elements"%string, VStr "shapes")]) "out.py" initial
     = (Raise AttributeError, initial)
  /\ parse_excalidraw_to_manim Config.empty
       (VDict [("elements"%string, VNum 3)]) "out.py" initial
     = (Raise TypeError, initial).
Proof.
  split.
  { apply (documents_without_shapes Config.empty (14, 8) (VList []) "out.py"
             eq_refl). discriminate. }
  split.
  { eapply (documents_without_shapes Config.empty (14, 8) (VDict []) "out.py"
              eq_refl); reflexivity. }
  split.
  { destruct (documents_without_shapes Config.empty (14, 8)
                (VDict [("elements"%string, VNone)]) "out.py" eq_refl)
      as (_ & _ & H).
    apply (H VNone eq_refl). reflexivity. }
  split.
  { destruct (documents_without_shapes Config.empty (14, 8)
                (VDict [("elements"%string, VStr "shapes")]) "out.py" eq_refl)
      as (_ & _ & H).
    apply (H (VStr "shapes") eq_refl); [reflexivity | discriminate]. }
  destruct (documents_without_shapes Config.empty (14, 8)
              (VDict [("elements"%string, VNum 3)]) "out.py" eq_refl)
    as (_ & _ & H).
  apply (H (VNum 3) eq_refl); [reflexivity | discriminate].
Defined.

Lemma interpolate_loop_raises (nested : string -> string -> result string)
    (lookup : string -> option string) (e : exn) :
  (forall v accum, nested v accum = Raise e ->
     In e [InterpolationSyntaxError; InterpolationMissingOptionError;
           InterpolationDepthError]) ->
  forall (fuel : nat) (rest accum : string),
    Config.interpolate_loop nested lookup fuel rest accum = Raise e ->
    In e [InterpolationSyntaxError; InterpolationMissingOptionError;
          InterpolationDepthError].
Proof.
  intros Hnested.
  induction fuel as [|fuel IH]; intros rest accum;
    cbn [Config.interpolate_loop]; [intros [=]|].
  destruct (Config.find_percent rest) as [[before after]|]; [|intros [=]].
  destruct after as [|c0 [|c after]]; try (intros [= <-]; simpl; tauto).
  destruct c as [[] [] [] [] [] [] [] []];
    try (intros [= <-]; simpl; tauto).
  - apply IH.
  - destruct (Config.key_reference after) as [[name rest']|];
      [|intros [= <-]; simpl; tauto].
    destruct (lookup (Config.optionxform name)) as [v|];
      [|intros [= <-]; simpl; tauto].
    destruct (Config.find_percent v) as [found|].
    + destruct (nested v _) as [accum'|e'] eqn:Hv; cbn [bind].
      * apply IH.
      * intros [= <-]. exact (Hnested _ _ Hv).
    + cbn [bind]. apply IH.
Qed.

Lemma interpolate_some_raises (lookup : string -> option string)
    (levels : nat) (rest accum : string) (e : exn) :
  Config.interpolate_some levels lookup rest accum = Raise e ->
  In e [InterpolationSyntaxError; InterpolationMissingOptionError;
        InterpolationDepthError].
Proof.
  revert rest accum.
  induction levels as [|levels IH]; intros rest accum;
    cbn [Config.interpolate_some].
  - intros [= <-]. simpl. tauto.
  - apply interpolate_loop_raises. exact IH.
Qed.

(** X19.  Reading the canvas dimensions never raises [KeyError]: the guard
    [has_section] keeps [config["CLI"]] from it.  It gives the dimensions,
    or it raises [ValueError] (a value [float] does not accept) or one of
    the three interpolation errors of [configparser] (a value with a
    percent sign that is no [%%] and no reference to an option that is
    set), or it meets an infinity or NaN. *)
Theorem configuration_outcomes (config : Config.t) :
  (exists size, manim_frame_size config = Ok size)
  \/ (exists e,
        manim_frame_size config = Raise e
        /\ In e [ValueError; InterpolationSyntaxError;
                 InterpolationMissingOptionError; InterpolationDepthError;
                 NotRepresented]).
Proof.
  assert (Hget : forall name fallback,
            Config.has_section config "CLI" = true ->
            (exists q, (v <- Config.get config "CLI" name (VNum fallback) ;;
                        Config.float v) = Ok q)
            \/ (exists e,
                  (v <- Config.get config "CLI" name (VNum fallback) ;;
                   Config.float v) = Raise e
                  /\ In e [ValueError; InterpolationSyntaxError;
                           InterpolationMissingOptionError;
                           InterpolationDepthError; NotRepresented])).
  { intros name fallback. unfold Config.has_section, Config.get.
    destruct (Config.assoc "CLI" (Config.sections config)) as [options|];
      [intros _|discriminate].
    destruct (Config.option_value config options name) as [raw|];
      [|left; now eexists].
    destruct (Config.before_get config options raw) as [s|e] eqn:Hraw;
      cbn [bind Config.float].
    - destruct (Config.literal_of s);
        [left; now eexists | right; eexists; split; [reflexivity|simpl; tauto]..].
    - right. exists e. split; [reflexivity|].
      apply interpolate_some_raises in Hraw. simpl in *. tauto. }
  unfold manim_frame_size.
  destruct (Config.has_section config "CLI") eqn:Hcli; [|left; now eexists].
  destruct (Hget "frame_width"%string 14 eq_refl) as [[w Hw]|(e & He & Hin)].
  - destruct (Hget "frame_height"%string 8 eq_refl) as [[h Hh]|(e & He & Hin)].
    + left. exists (w, h).
      destruct (Config.get config "CLI" "frame_width" (VNum 14)) as [vw|];
        [cbn [bind] in *|discriminate Hw]. rewrite Hw. cbn [bind].
      destruct (Config.get config "CLI" "frame_height" (VNum 8)) as [vh|];
        [cbn [bind] in *|discriminate Hh]. now rewrite Hh.
    + right. exists e. split; [|exact Hin].
      destruct (Config.get config "CLI" "frame_width" (VNum 14)) as [vw|];
        [cbn [bind] in *|discriminate Hw]. rewrite Hw. cbn [bind].
      destruct (Config.get config "CLI" "frame_height" (VNum 8)) as [vh|];
        cbn [bind] in *; [now rewrite He | congruence].
  - right. exists e. split; [|exact Hin].
    destruct (Config.get config "CLI" "frame_width" (VNum 14)) as [vw|];
      cbn [bind] in *; [now rewrite He | congruence].
Qed.

(** A value with a stray percent sign. *)
Lemma configuration_outcomes_example :
  manim_frame_size
    {| Config.defaults := [];
       Config.sections := [("CLI", [("frame_width", "50%")])]%string |}
  = Raise InterpolationSyntaxError.
Proof. reflexivity. Qed.

(** X20.  The command line.  With fewer than two arguments after the name
    of the program, the usage line is printed, the exit status is 1 and
    the converter is not called.  Otherwise it is called with the first
    argument as input file and the second as output file; the
    configuration is read from the third argument if there is one and from
    "manim.cfg" if not, and further arguments are ignored. *)
Theorem main_arguments (argv : list string) :
  (main argv = Exit usage 1 <-> (List.length argv < 3)%nat)
  /\ forall input_file output_file manim_config_path,
       main argv = Call input_file output_file manim_config_path
       <-> exists program rest,
             argv = program :: input_file :: output_file :: rest
             /\ manim_config_path = hd "manim.cfg"%string rest.
Proof.
  unfold main. split.
  - destruct (List.length argv <? 3)%nat eqn:E.
    + apply Nat.ltb_lt in E. now split.
    + apply Nat.ltb_ge in E. split; [discriminate | lia].
  - intros input_file output_file manim_config_path.
    destruct argv as [|program [|a1 [|a2 rest]]]; simpl;
      try (split; [discriminate | intros (? & ? & [=] & _)]).
    destruct rest as [|a3 rest]; simpl.
    + split.
      * intros [= <- <- <-]. now exists program, [].
      * intros (? & ? & [= <- <- <- <-] & ->). reflexivity.
    + split.
      * intros [= <- <- <-]. now exists program, (a3 :: rest).
      * intros (? & ? & [= <- <- <- <-] & ->). reflexivity.
Qed.

Lemma main_arguments_witness :
  main ["exman"; "in.excalidraw"; "out.py"]%string
  = Call "in.excalidraw" "out.py" "manim.cfg"
  /\ main ["exman"; "in.excalidraw"]%string = Exit usage 1.
Proof.
  split.
  - apply (proj2 (main_arguments ["exman"; "in.excalidraw"; "out.py"]%string)).
    now exists "exman"%string, [].
  - apply (proj1 (main_arguments ["exman"; "in.excalidraw"]%string)).
    simpl. lia.
Defined.

(** ** Which frames can be written *)














